(** * Ingestion and enrichment pipeline of app.py

    A shallow embedding of the data-collection core of the Seoul rent
    dashboard: [get_total_count], [fetch_data_async],
    [collect_data_sequential], [get_all_rent_data], [get_coordinates] and the
    geocoding loop of [main].

    The program talks to two HTTP services.  Every request is answered by an
    oracle (the [network], the [geocoder]) that is indexed by the number of
    requests issued so far, and everything the program does to the outside
    world (requests, sleeps, calls of the progress callback) is appended to a
    log carried in the state. *)

From Stdlib Require Import ZArith QArith Lia Lqa Ascii String.
From stdpp Require Import base gmap list strings pretty.
From Equations Require Import Equations.

Close Scope Q_scope.
Local Open Scope Z_scope.

(** ** Data model *)

(** Scalars of a decoded JSON object: null, an integer, a string. *)
Inductive value :=
| VNone
| VInt (z : Z)
| VStr (s : string).

#[global] Instance value_eq_dec : EqDecision value.
Proof. solve_decision. Defined.

(** A record of the data set is a Python dict from field names to scalars. *)
Abbreviation record := (gmap string value).

(** A filter argument ([gu_code], [dong_code]) is [None], an integer or a
    string. *)
Inductive code :=
| CInt (z : Z)
| CStr (s : string).

(** Python truthiness of a filter argument: [if gu_code]. *)
Definition truthy (c : option code) : bool :=
  match c with
  | None => false
  | Some (CInt z) => negb (z =? 0)
  | Some (CStr s) => negb (String.eqb s "")
  end.

(** [str(gu_code)]. *)
Definition str (c : option code) : string :=
  match c with
  | None => "None"
  | Some (CInt z) => pretty z
  | Some (CStr s) => s
  end.

(** [str(v)] for a scalar taken out of a dict, as an f-string prints it. *)
Definition str_value (v : value) : string :=
  match v with
  | VNone => "None"
  | VInt z => pretty z
  | VStr s => s
  end.

(** [d.get(k)]: the value, or None when the key is missing. *)
Definition get (d : gmap string value) (k : string) : value :=
  default VNone (d !! k).

(** [d.get(k, dflt)]. *)
Definition get_default (d : gmap string value) (k dflt : string) : value :=
  default (VStr dflt) (d !! k).

(** [v == s] for a string [s]: only a string value equals a string. *)
Definition eq_str (v : value) (s : string) : bool :=
  match v with
  | VStr t => String.eqb t s
  | _ => false
  end.

(** The object stored under the data set's name: the keys the program looks
    at, each of them optional.  [list_total_count] is a JSON number, [row] a
    list of records, [RESULT] a dict with CODE and MESSAGE. *)
Record envelope := Envelope {
  list_total_count : option Z;
  row : option (list record);
  RESULT : option (gmap string value)
}.

(** The decoded body, [data = await response.json()].  Only the key
    tbLnOpendataRentV is ever read; [text] is what [str(data)] prints, which
    [get_total_count] puts into one of its messages. *)
Record data := Data {
  tbLnOpendataRentV : option envelope;
  text : string
}.

(** What one [session.get(url)] block can do: raise [asyncio.TimeoutError],
    raise another exception ([msg] is [str(e)]; a body that does not decode
    raises inside the same [try]), or deliver a status and a decoded body. *)
Inductive outcome :=
| TimeoutError
| Exception (msg : string)
| Response (status : Z) (body : data).

(** The upstream service: the answer to the [n]-th request of a run, for the
    window [start_idx .. end_idx] of the URL. *)
Definition network := nat -> Z -> Z -> outcome.

(** ** State and effects *)

(** What the program does to the outside world: a request for a window of the
    data set, a sleep, a call [progress_callback(start_idx, end_idx, total,
    collected, status=..., error=...)], a geocoding request for an address,
    and the update of the progress widgets in the geocoding loop of [main]. *)
Inductive event :=
| Get (start_idx end_idx : Z)
| Sleep (seconds : Q)
| Progress (start_idx end_idx total collected : Z)
           (status error : option string)
| Geocode (address : string)
| Update (processed total : Z).

Record state := State {
  requests : nat;
  log : list event
}.

Definition M (A : Type) : Type := state -> A * state.

Definition ret {A} (a : A) : M A := fun s => (a, s).

Definition bind {A B} (m : M A) (k : A -> M B) : M B :=
  fun s => let (a, s') := m s in k a s'.

Notation "x <- c ;; k" := (bind c (fun x => k))
  (at level 100, c at next level, right associativity).
Notation "c ;;; k" := (bind c (fun _ => k))
  (at level 100, right associativity).

Definition emit (e : event) : M unit :=
  fun s => (tt, State (requests s) (log s ++ [e])).

(** [await asyncio.sleep(seconds)]. *)
Definition sleep (seconds : Q) : M unit := emit (Sleep seconds).

(** [session.get(url)] for the URL ending in /start_idx/end_idx. *)
Definition session_get (net : network) (start_idx end_idx : Z) : M outcome :=
  fun s => (net (requests s) start_idx end_idx,
            State (S (requests s)) (log s ++ [Get start_idx end_idx])).

(** [if progress_callback: progress_callback(...)].  The callback argument is
    either None or a callable; [progress_callback = true] stands for a
    callable, and calling it is recorded in the log. *)
Definition call_progress (progress_callback : bool) (e : event) : M unit :=
  if progress_callback then emit e else ret tt.

(** A pair [(data, error)] as the fetch functions return it. *)
Abbreviation result := (option (list record) * option string)%type.

(** [if error]: None and the empty string are false. *)
Definition truthy_str (e : option string) : bool :=
  match e with
  | None => false
  | Some s => negb (String.eqb s "")
  end.

(** ** fetch_data_async *)

(** The loop that fills [filtered_rows] in [fetch_data_async]. *)
Fixpoint filter_rows (gu_code dong_code : option code) (rows : list record)
  : list record :=
  match rows with
  | [] => []
  | r :: rest =>
      if truthy gu_code && negb (eq_str (get r "CGG_CD") (str gu_code))
      then filter_rows gu_code dong_code rest
      else if truthy dong_code
              && negb (eq_str (get r "STDG_CD") (str dong_code))
      then filter_rows gu_code dong_code rest
      else r :: filter_rows gu_code dong_code rest
  end.

(** The client-side filtering of [fetch_data_async]: the loop runs under
    [if gu_code or dong_code], and otherwise [rows] itself is returned. *)
Definition client_side_filter (gu_code dong_code : option code)
    (rows : list record) : list record :=
  if truthy gu_code || truthy dong_code
  then filter_rows gu_code dong_code rows
  else rows.

(** The tail shared by the four failure branches:
    [if retry < max_retries - 1: await asyncio.sleep(2 ** retry); continue]
    and otherwise [return None, err].  [None] stands for [continue]. *)
Definition backoff (retry max_retries : Z) (err : string) : M (option result) :=
  if retry <? max_retries - 1
  then sleep (inject_Z (2 ^ retry)) ;;; ret None
  else ret (Some (None, Some err)).

(** One pass through the body of [for retry in range(max_retries)]. *)
Definition attempt (net : network) (start_idx end_idx : Z)
    (gu_code dong_code : option code) (max_retries retry : Z)
  : M (option result) :=
  o <- session_get net start_idx end_idx ;;
  match o with
  | Response status body =>
      if status =? 200 then
        match tbLnOpendataRentV body with
        | Some res =>
            match row res with
            | Some rows =>
                ret (Some (Some (client_side_filter gu_code dong_code rows),
                           None))
            | None =>
                match RESULT res with
                | Some r =>
                    let code := get r "CODE" in
                    if eq_str code "INFO-200" then ret (Some (Some [], None))
                    else
                      let msg := get_default r "MESSAGE" "알 수 없는 오류" in
                      backoff retry max_retries
                        ("API 오류: " +:+ str_value code +:+ " - "
                           +:+ str_value msg)
                | None => ret (Some (None, Some "잘못된 응답 형식"))
                end
            end
        | None => ret (Some (None, Some "잘못된 응답 형식"))
        end
      else backoff retry max_retries ("HTTP 오류: " +:+ pretty status)
  | TimeoutError =>
      backoff retry max_retries
        ("요청 시간 초과 (범위: " +:+ pretty start_idx +:+ "-"
           +:+ pretty end_idx +:+ ")")
  | Exception e => backoff retry max_retries ("오류 발생: " +:+ e)
  end.

(** The [for] loop over the retry indices; [None] when the loop runs to its
    end without a [return]. *)
Fixpoint retry_loop (net : network) (start_idx end_idx : Z)
    (gu_code dong_code : option code) (max_retries : Z) (retries : list Z)
  : M (option result) :=
  match retries with
  | [] => ret None
  | retry :: rest =>
      r <- attempt net start_idx end_idx gu_code dong_code max_retries retry ;;
      match r with
      | Some res => ret (Some res)
      | None =>
          retry_loop net start_idx end_idx gu_code dong_code max_retries rest
      end
  end.

Definition fetch_data_async (net : network) (start_idx end_idx : Z)
    (gu_code dong_code : option code) (max_retries : Z) : M result :=
  r <- retry_loop net start_idx end_idx gu_code dong_code max_retries
         (seqZ 0 max_retries) ;;
  match r with
  | Some res => ret res
  | None => ret (None, Some "최대 재시도 횟수 초과")
  end.

(** ** get_total_count *)

(** One request for the window 1..1000 of the unfiltered data set; the two
    filter arguments are accepted and not used.  The debugging prints of the
    source are left out. *)
Definition get_total_count (net : network) (gu_code dong_code : option code)
  : M (option Z * option string) :=
  o <- session_get net 1 1000 ;;
  match o with
  | Response status body =>
      if status =? 200 then
        match tbLnOpendataRentV body with
        | Some res =>
            match list_total_count res with
            | Some total_count => ret (Some total_count, None)
            | None =>
                match RESULT res with
                | Some r =>
                    let code := get r "CODE" in
                    let msg := get_default r "MESSAGE" "알 수 없는 오류" in
                    ret (None, Some ("API 오류: " +:+ str_value code +:+ " - "
                                       +:+ str_value msg))
                | None => ret (None, Some ("잘못된 응답 형식: " +:+ text body))
                end
            end
        | None => ret (None, Some ("잘못된 응답 형식: " +:+ text body))
        end
      else ret (None, Some ("HTTP 오류: " +:+ pretty status))
  | TimeoutError => ret (None, Some "요청 시간 초과")
  | Exception e => ret (None, Some ("오류 발생: " +:+ e))
  end.

(** ** collect_data_sequential *)

Definition batch_size : Z := 100.

(** [str(error)] inside the warning's f-string. *)
Definition str_error (e : option string) : string := default "None" e.

(** The body of the [while] loop for the window [current_idx .. end_idx],
    up to the assignment [current_idx = end_idx + 1] that both of its paths
    make; it returns the accumulator. *)
Definition collect_window (net : network) (total_count : Z)
    (gu_code dong_code : option code) (progress_callback : bool)
    (current_idx end_idx : Z) (all_data : list record) : M (list record) :=
  call_progress progress_callback
    (Progress current_idx end_idx total_count (Z.of_nat (length all_data))
       None None) ;;;
  r <- fetch_data_async net current_idx end_idx gu_code dong_code 3 ;;
  let (data, error) := r in
  if truthy_str error then
    call_progress progress_callback
      (Progress current_idx end_idx total_count (Z.of_nat (length all_data))
         None
         (Some ("⚠️ 범위 " +:+ pretty current_idx +:+ "-" +:+ pretty end_idx
                  +:+ " 조회 실패: " +:+ str_error error))) ;;;
    sleep 1%Q ;;;
    ret all_data
  else
    let all_data :=
      match data with
      | Some (r :: rest) => all_data ++ r :: rest
      | _ => all_data
      end in
    sleep (1 # 5)%Q ;;;
    ret all_data.

(** [while current_idx <= total_count].  Every pass moves [current_idx] to
    [end_idx + 1], which is what makes the loop end. *)
Equations? collect_loop (net : network) (total_count : Z)
    (gu_code dong_code : option code) (progress_callback : bool)
    (current_idx : Z) (all_data : list record) (s : state)
  : list record * state
  by wf (Z.to_nat (total_count + 1 - current_idx)) lt :=
  collect_loop net total_count gu_code dong_code progress_callback
      current_idx all_data s
    with decide (current_idx <= total_count) => {
    | left _ =>
        let end_idx := Z.min (current_idx + batch_size - 1) total_count in
        let r := collect_window net total_count gu_code dong_code
                   progress_callback current_idx end_idx all_data s in
        collect_loop net total_count gu_code dong_code progress_callback
          (end_idx + 1) (fst r) (snd r);
    | right _ => (all_data, s) }.
Proof. subst end_idx. unfold batch_size. lia. Qed.

Definition collect_data_sequential (net : network) (total_count : Z)
    (gu_code dong_code : option code) (progress_callback : bool)
  : M (list record) :=
  collect_loop net total_count gu_code dong_code progress_callback 1 [].

(** ** get_all_rent_data *)

(** Commas between groups of three digits, on the reversed digits. *)
Fixpoint commas (k : nat) (rev_digits : list ascii) : list ascii :=
  match rev_digits with
  | [] => []
  | d :: rest =>
      match rest, k with
      | _ :: _, 2%nat => d :: ","%char :: commas 0 rest
      | _, _ => d :: commas (S k) rest
      end
  end.

(** The format [{n:,}] of an f-string. *)
Definition format_thousands (n : Z) : string :=
  (if n <? 0 then "-" else "")
    +:+ string_of_list_ascii
          (rev (commas 0 (rev (list_ascii_of_string (pretty (Z.abs n)))))).

(** The collected records stand for the DataFrame built from them.  Nothing
    in [collect_data_sequential] as modelled raises, so the [except] branch
    of the source has no counterpart. *)
Definition get_all_rent_data (net : network) (gu_code dong_code : option code)
    (progress_callback : bool) : M result :=
  call_progress progress_callback
    (Progress 0 0 0 0 (Some "전체 데이터 개수 조회 중...") None) ;;;
  r <- get_total_count net gu_code dong_code ;;
  let (total, error) := r in
  if truthy_str error then ret (None, error)
  else
    match total with
    | None => ret (None, Some "조회된 데이터가 없습니다.")
    | Some total_count =>
        if total_count =? 0 then ret (None, Some "조회된 데이터가 없습니다.")
        else
          call_progress progress_callback
            (Progress 0 0 total_count 0
               (Some ("총 " +:+ format_thousands total_count
                        +:+ "건의 데이터 수집 시작..."))
               None) ;;;
          all_data <- collect_data_sequential net total_count gu_code
                        dong_code progress_callback ;;
          match all_data with
          | _ :: _ => ret (Some all_data, None)
          | [] => ret (None, Some "데이터 수집 실패")
          end
    end.

(** ** get_coordinates and the geocoding loop of main *)

(** What the geocoding request can do: raise (the [except] swallows it), or
    deliver a status and the value of the key documents of the decoded body,
    a list of dicts when it is there. *)
Inductive geo_outcome :=
| GeoException
| GeoResponse (status : Z) (documents : option (list (gmap string value))).

(** The geocoding service: its answer to the [n]-th request of the run. *)
Definition geocoder := nat -> string -> geo_outcome.

Section Enrichment.

(** Python's floating-point numbers and [float(v)], [None] when it
    raises. *)
Context {F : Type} (float : value -> option F).

(** The part of [get_coordinates] after the request: two floats, or
    [(None, None)]. *)
Definition coordinates_of (o : geo_outcome) : option F * option F :=
  match o with
  | GeoResponse status documents =>
      if status =? 200 then
        match documents with
        | Some (doc :: _) =>
            match doc !! "x" with
            | Some x =>
                match float x with
                | Some fx =>
                    match doc !! "y" with
                    | Some y =>
                        match float y with
                        | Some fy => (Some fx, Some fy)
                        | None => (None, None)
                        end
                    | None => (None, None)
                    end
                | None => (None, None)
                end
            | None => (None, None)
            end
        | _ => (None, None)
        end
      else (None, None)
  | GeoException => (None, None)
  end.

Definition get_coordinates (geo : geocoder) (address : string)
  : M (option F * option F) :=
  fun s => (coordinates_of (geo (requests s) address),
            State (S (requests s)) (log s ++ [Geocode address])).

(** [for idx, address in enumerate(df[...])] in [main]: one call of
    [get_coordinates] per address, the pair appended as (lat, lng), and the
    progress widgets updated after every 50th address. *)
Fixpoint geocode_loop (geo : geocoder) (total idx : Z)
    (addresses : list string) (coordinates : list (option F * option F))
  : M (list (option F * option F)) :=
  match addresses with
  | [] => ret coordinates
  | address :: rest =>
      c <- get_coordinates geo address ;;
      let (lng, lat) := c in
      let coordinates := coordinates ++ [(lat, lng)] in
      (if (idx + 1) mod 50 =? 0 then emit (Update (idx + 1) total)
       else ret tt) ;;;
      geocode_loop geo total (idx + 1) rest coordinates
  end.

Definition main_coordinates (geo : geocoder) (addresses : list string)
  : M (list (option F * option F)) :=
  geocode_loop geo (Z.of_nat (length addresses)) 0 addresses [].

End Enrichment.

(** ** Vocabulary of the specification *)

(** The retryable failures of one attempt, as the specification lists them:
    a timeout, a raised exception, a status other than 200, and a structured
    result code other than the no-data code. *)
Definition retryable (o : outcome) : bool :=
  match o with
  | TimeoutError | Exception _ => true
  | Response status body =>
      if status =? 200 then
        match tbLnOpendataRentV body with
        | Some (Envelope _ None (Some r)) =>
            negb (eq_str (get r "CODE") "INFO-200")
        | _ => false
        end
      else true
  end.

(** The message that describes a retryable failure for the window. *)
Definition cause (start_idx end_idx : Z) (o : outcome) : string :=
  match o with
  | TimeoutError =>
      "요청 시간 초과 (범위: " +:+ pretty start_idx +:+ "-"
        +:+ pretty end_idx +:+ ")"
  | Exception e => "오류 발생: " +:+ e
  | Response status body =>
      if status =? 200 then
        match tbLnOpendataRentV body with
        | Some (Envelope _ _ (Some r)) =>
            "API 오류: " +:+ str_value (get r "CODE") +:+ " - "
              +:+ str_value (get_default r "MESSAGE" "알 수 없는 오류")
        | _ => ""
        end
      else "HTTP 오류: " +:+ pretty status
  end.

(** A success response whose body has an unexpected shape: the data set's
    key is missing, or the object under it has neither row nor RESULT. *)
Definition malformed (o : outcome) : bool :=
  match o with
  | Response status body =>
      (status =? 200)
      && match tbLnOpendataRentV body with
         | None | Some (Envelope _ None None) => true
         | _ => false
         end
  | _ => false
  end.

(** The no-data answer: status 200 and, in place of a row list, a RESULT
    whose CODE is INFO-200. *)
Definition no_data (o : outcome) : bool :=
  match o with
  | Response status body =>
      (status =? 200)
      && match tbLnOpendataRentV body with
         | Some (Envelope _ None (Some r)) => eq_str (get r "CODE") "INFO-200"
         | _ => false
         end
  | _ => false
  end.

(** The row list of a success response, when it has one. *)
Definition rows_of (o : outcome) : option (list record) :=
  match o with
  | Response status body =>
      if status =? 200 then
        match tbLnOpendataRentV body with
        | Some res => row res
        | None => None
        end
      else None
  | _ => None
  end.

(** What an attempt that is not a retryable failure returns. *)
Definition settled (gu_code dong_code : option code) (o : outcome) : result :=
  match rows_of o with
  | Some rows => (Some (client_side_filter gu_code dong_code rows), None)
  | None =>
      if no_data o then (Some [], None) else (None, Some "잘못된 응답 형식")
  end.

(** The log of [n] attempts at one window: a request, and before each
    further request the sleep of 2^i seconds that follows attempt [i]. *)
Fixpoint attempts_log (start_idx end_idx : Z) (i : Z) (n : nat) : list event :=
  match n with
  | O => []
  | S O => [Get start_idx end_idx]
  | S n' =>
      Get start_idx end_idx :: Sleep (inject_Z (2 ^ i))
        :: attempts_log start_idx end_idx (i + 1) n'
  end.

(** The state once the request for a window has been issued. *)
Definition after_get (start_idx end_idx : Z) (s : state) : state :=
  State (S (requests s)) (log s ++ [Get start_idx end_idx]).


(** A record passes the filter when its district field is the stringified
    district code, if a district filter is present, and its sub-district
    field is the stringified sub-district code, if a sub-district filter is
    present.  A filter component is present when the argument is true in
    Python's sense. *)
Definition passes (gu_code dong_code : option code) (r : record) : Prop :=
  (truthy gu_code = true -> get r "CGG_CD" = VStr (str gu_code))
  /\ (truthy dong_code = true -> get r "STDG_CD" = VStr (str dong_code)).

#[global] Instance passes_dec gu_code dong_code r :
  Decision (passes gu_code dong_code r).
Proof. unfold passes. apply _. Defined.

(** The number of windows, the ceiling of total_count / 100. *)
Definition pages (total_count : Z) : Z :=
  (total_count + batch_size - 1) / batch_size.

(** The window number [k], counted from 0. *)
Definition page_range (total_count k : Z) : Z * Z :=
  (batch_size * k + 1, Z.min (batch_size * k + batch_size) total_count).

(** The windows of a run, in the order of their offsets. *)
Definition page_ranges (total_count : Z) : list (Z * Z) :=
  page_range total_count <$> seqZ 0 (pages total_count).

(** One pass of the collector's loop over a window, on the pair of the
    accumulator and the state. *)
Definition visit (net : network) (total_count : Z)
    (gu_code dong_code : option code) (progress_callback : bool)
    (st : list record * state) (w : Z * Z) : list record * state :=
  collect_window net total_count gu_code dong_code progress_callback
    (fst w) (snd w) (fst st) (snd st).

(** The event of a progress call, when there is a callback to call. *)
Definition when_callback (progress_callback : bool) (e : event) : list event :=
  if progress_callback then [e] else [].

(** The windows that the progress calls of a log announce, in their
    order: the calls without status and without error. *)
Fixpoint announced (l : list event) : list (Z * Z) :=
  match l with
  | [] => []
  | Progress a b _ _ None None :: rest => (a, b) :: announced rest
  | _ :: rest => announced rest
  end.

(** The progress events of a log that carry a warning. *)
Fixpoint warnings (l : list event) : list event :=
  match l with
  | [] => []
  | Progress a b t c st (Some w) :: rest =>
      Progress a b t c st (Some w) :: warnings rest
  | _ :: rest => warnings rest
  end.

(** The call that announces a window, and the call that reports its
    failure. *)
Definition announce (current_idx end_idx total_count : Z)
    (all_data : list record) : event :=
  Progress current_idx end_idx total_count (Z.of_nat (length all_data))
    None None.

Definition warning (current_idx end_idx total_count : Z)
    (all_data : list record) (error : string) : event :=
  Progress current_idx end_idx total_count (Z.of_nat (length all_data)) None
    (Some ("⚠️ 범위 " +:+ pretty current_idx +:+ "-" +:+ pretty end_idx
             +:+ " 조회 실패: " +:+ error)).

(** A geocoding failure as the specification lists them: a network error, a
    status other than 200, an empty or missing documents list. *)
Definition geo_failure (o : geo_outcome) : bool :=
  match o with
  | GeoException => true
  | GeoResponse status documents =>
      negb (status =? 200)
      || match documents with
         | Some (_ :: _) => false
         | _ => true
         end
  end.

(** The addresses of the geocoding requests of a log, in their order. *)
Fixpoint geocoded (l : list event) : list string :=
  match l with
  | [] => []
  | Geocode address :: rest => address :: geocoded rest
  | _ :: rest => geocoded rest
  end.

(** The pair that the loop of [main] stores for the answer [o]: latitude
    first. *)
Definition stored {F : Type} (float : value -> option F) (o : geo_outcome)
  : option F * option F :=
  (snd (coordinates_of float o), fst (coordinates_of float o)).

(** ** Concrete inputs *)

Definition s0 : state := State 0 [].

Definition row_gu11 : record :=
  {[ "CGG_CD" := VStr "11"; "STDG_CD" := VStr "101" ]}.

Definition row_gu22 : record :=
  {[ "CGG_CD" := VStr "22"; "STDG_CD" := VStr "202" ]}.

Definition rows_body (rows : list record) : outcome :=
  Response 200 (Data (Some (Envelope (Some 250) (Some rows) None)) "").

Definition no_data_body : outcome :=
  Response 200
    (Data (Some (Envelope None None
                   (Some {[ "CODE" := VStr "INFO-200";
                            "MESSAGE" := VStr "no data" ]}))) "").

Definition missing_key_body : outcome :=
  Response 200 (Data None "{}").

(** Every request is answered with the same two rows. *)
Definition net_rows : network := fun _ _ _ => rows_body [row_gu11; row_gu22].

(** Every request is answered with a body without the data set's key. *)
Definition net_missing_key : network := fun _ _ _ => missing_key_body.

(** The first request fails with status 500, the next ones carry the
    no-data code. *)
Definition net_500_then_no_data : network :=
  fun n _ _ => match n with O => Response 500 (Data None "") | _ => no_data_body end.

(** Every request fails with status 500. *)
Definition net_500 : network := fun _ _ _ => Response 500 (Data None "").

(** The first request is answered with two rows, every later one fails
    with status 500. *)
Definition net_rows_then_500 : network :=
  fun n _ _ =>
    match n with
    | O => rows_body [row_gu11; row_gu22]
    | _ => Response 500 (Data None "")
    end.

(** The probe finds a total count of zero. *)
Definition net_zero_count : network :=
  fun _ _ _ => Response 200 (Data (Some (Envelope (Some 0) (Some []) None)) "").

(** A record whose district field is the number 11, not the string. *)
Definition row_gu_number : record := {[ "CGG_CD" := VInt 11 ]}.

(** A stand-in for [float]: a string is kept as it is, anything else
    raises. *)
Definition float_of_string (v : value) : option string :=
  match v with
  | VStr s => Some s
  | _ => None
  end.

Definition document (x y : string) : gmap string value :=
  {[ "x" := VStr x; "y" := VStr y ]}.

(** The second request finds no document, the other ones find one. *)
Definition geo_second_fails : geocoder :=
  fun n _ =>
    match n with
    | 1%nat => GeoResponse 200 (Some [])
    | _ => GeoResponse 200 (Some [document "127.0" "37.5"])
    end.
(** ** build_api_params *)

(** The URL suffix for the optional parameters: the stringified arguments
    that are true in Python's sense, each behind a slash. *)
Definition build_api_params (gu_code dong_code : option code) : string :=
  if negb (truthy gu_code) && negb (truthy dong_code) then ""
  else
    let params := [] in
    let params := if truthy gu_code then params ++ [str gu_code] else params in
    let params :=
      if truthy dong_code then params ++ [str dong_code] else params in
    match params with
    | [] => ""
    | _ :: _ => "/" +:+ String.concat "/" params
    end.

(** ** create_address *)

(** [v != 0] for a value of a row. *)
Definition ne_zero (v : value) : bool :=
  match v with
  | VInt z => negb (z =? 0)
  | _ => true
  end.

Section Address.

(** Python's [int(v)], [None] when it raises. *)
Context (int : value -> option Z).

(** The address of a row of the renamed table; [None] when a lookup outside
    the two [try] blocks raises KeyError. *)
Definition create_address (row : gmap string value) (gu_name : string)
  : option string :=
  match row !! "법정동명" with
  | None => None
  | Some dong =>
      let address := "서울특별시 " +:+ gu_name +:+ " " +:+ str_value dong in
      match row !! "지번구분명" with
      | None => None
      | Some se =>
          let address :=
            if eq_str se "산" then address +:+ " " +:+ str_value se
            else address in
          let address :=
            match row !! "본번" with
            | Some mno =>
                match int mno with
                | Some n => address +:+ " " +:+ pretty n
                | None => address
                end
            | None => address
            end in
          let address :=
            match row !! "부번" with
            | Some sno =>
                if ne_zero sno then
                  match int sno with
                  | Some n => address +:+ "-" +:+ pretty n
                  | None => address
                  end
                else address
            | None => address
            end in
          Some address
      end
  end.

End Address.

(** ** More vocabulary *)

(** A result as the fetch functions may return it: rows and no error, or no
    rows and an error that is not the empty string. *)
Definition well_formed (r : result) : Prop :=
  (exists rows, r = (Some rows, None))
  \/ (exists e, r = (None, Some e) /\ e <> "").

(** The requests and sleeps of a log: the log without its progress events. *)
Fixpoint io_events (l : list event) : list event :=
  match l with
  | [] => []
  | Progress _ _ _ _ _ _ :: rest => io_events rest
  | e :: rest => e :: io_events rest
  end.

(** Two states that agree on the number of requests and on the requests
    and sleeps logged so far. *)
Definition same_io (s s' : state) : Prop :=
  requests s = requests s' /\ io_events (log s) = io_events (log s').

(** The seconds slept according to a log. *)
Fixpoint slept (l : list event) : Q :=
  match l with
  | [] => 0%Q
  | Sleep d :: rest => (d + slept rest)%Q
  | _ :: rest => slept rest
  end.

(** The updates of the progress widgets in a log, in their order. *)
Fixpoint updates (l : list event) : list event :=
  match l with
  | [] => []
  | Update p t :: rest => Update p t :: updates rest
  | _ :: rest => updates rest
  end.

(** The rows that the first attempt at window [w] collects when it is
    request number [n] of the run and the answer carries a row list. *)
Definition page_rows (net : network) (gu_code dong_code : option code)
    (n : nat) (w : Z * Z) : list record :=
  client_side_filter gu_code dong_code
    (default [] (rows_of (net n (fst w) (snd w)))).

(** A stand-in for [int]: an integer is kept, anything else raises. *)
Definition int_of_integer (v : value) : option Z :=
  match v with
  | VInt z => Some z
  | _ => None
  end.

(** A row of the renamed table: lot 12-3 on a mountain. *)
Definition row_address : gmap string value :=
  {[ "법정동명" := VStr "사직동"; "지번구분명" := VStr "산";
     "본번" := VInt 12; "부번" := VInt 3 ]}.

(** The probe finds a negative total count. *)
Definition net_negative_count : network :=
  fun _ _ _ => Response 200 (Data (Some (Envelope (Some (-5)) None None)) "").

(** ** The monad *)

Lemma bind_run {A B} (m : M A) (k : A -> M B) (s : state) :
  bind m k s = k (fst (m s)) (snd (m s)).
Proof. unfold bind. destruct (m s). reflexivity. Qed.

(** ** One attempt, and the three attempts of a fetch *)

Lemma attempt_run net a b gu dong mr retry s :
  attempt net a b gu dong mr retry s =
    let o := net (requests s) a b in
    if retryable o then backoff retry mr (cause a b o) (after_get a b s)
    else (Some (settled gu dong o), after_get a b s).
Proof.
  unfold attempt, session_get, after_get, settled, rows_of, no_data,
    retryable, cause, bind, ret; simpl.
  destruct (net (requests s) a b) as [| e | status body]; try reflexivity.
  destruct (status =? 200); [|reflexivity].
  destruct (tbLnOpendataRentV body) as [[c [rows|] [r|]]|]; simpl;
    try reflexivity.
  destruct (eq_str (get r "CODE") "INFO-200"); reflexivity.
Qed.

Lemma backoff_again retry mr err s :
  retry < mr - 1 ->
  backoff retry mr err s =
    (None, State (requests s) (log s ++ [Sleep (inject_Z (2 ^ retry))])).
Proof.
  intros H. unfold backoff. apply Z.ltb_lt in H. rewrite H. reflexivity.
Qed.

Lemma backoff_last retry mr err s :
  mr - 1 <= retry -> backoff retry mr err s = (Some (None, Some err), s).
Proof.
  intros H. unfold backoff. apply Z.ltb_ge in H. rewrite H. reflexivity.
Qed.

Lemma retry_loop_cons net a b gu dong mr retry rest s :
  retry_loop net a b gu dong mr (retry :: rest) s =
    match attempt net a b gu dong mr retry s with
    | (Some res, s') => (Some res, s')
    | (None, s') => retry_loop net a b gu dong mr rest s'
    end.
Proof.
  cbn [retry_loop]. unfold bind.
  destruct (attempt net a b gu dong mr retry s) as [[res|] s']; reflexivity.
Qed.

Lemma retry_loop_unrolled net a b gu dong s :
  retry_loop net a b gu dong 3 (seqZ 0 3) s =
    let n := requests s in
    let o0 := net n a b in
    let o1 := net (S n) a b in
    let o2 := net (S (S n)) a b in
    if retryable o0 then
      if retryable o1 then
        (Some (if retryable o2 then (None, Some (cause a b o2))
               else settled gu dong o2),
         State (S (S (S n))) (log s ++ attempts_log a b 0 3))
      else (Some (settled gu dong o1),
            State (S (S n)) (log s ++ attempts_log a b 0 2))
    else (Some (settled gu dong o0),
          State (S n) (log s ++ attempts_log a b 0 1)).
Proof.
  change (seqZ 0 3) with [0; 1; 2].
  rewrite retry_loop_cons, attempt_run. cbn zeta.
  destruct (retryable (net (requests s) a b)); [|reflexivity].
  rewrite backoff_again by lia.
  rewrite retry_loop_cons, attempt_run. unfold after_get; cbn [requests log].
  destruct (retryable (net (S (requests s)) a b));
    [|rewrite <- !app_assoc; reflexivity].
  rewrite backoff_again by lia.
  rewrite retry_loop_cons, attempt_run. unfold after_get; cbn [requests log].
  destruct (retryable (net (S (S (requests s))) a b)).
  - rewrite backoff_last by lia. rewrite <- !app_assoc. reflexivity.
  - rewrite <- !app_assoc. reflexivity.
Qed.

Lemma fetch_unrolled net a b gu dong s :
  fetch_data_async net a b gu dong 3 s =
    let n := requests s in
    let o0 := net n a b in
    let o1 := net (S n) a b in
    let o2 := net (S (S n)) a b in
    if retryable o0 then
      if retryable o1 then
        (if retryable o2 then (None, Some (cause a b o2))
         else settled gu dong o2,
         State (S (S (S n))) (log s ++ attempts_log a b 0 3))
      else (settled gu dong o1,
            State (S (S n)) (log s ++ attempts_log a b 0 2))
    else (settled gu dong o0, State (S n) (log s ++ attempts_log a b 0 1)).
Proof.
  unfold fetch_data_async, bind. rewrite retry_loop_unrolled. cbn zeta.
  destruct (retryable (net (requests s) a b)); [|reflexivity].
  destruct (retryable (net (S (requests s)) a b)); reflexivity.
Qed.

(** The attempt that is not a retryable failure ends the fetch. *)
Lemma fetch_settles net a b gu dong s (k : nat) :
  (k < 3)%nat ->
  (forall i, (i < k)%nat -> retryable (net (requests s + i)%nat a b) = true) ->
  retryable (net (requests s + k)%nat a b) = false ->
  fetch_data_async net a b gu dong 3 s =
    (settled gu dong (net (requests s + k)%nat a b),
     State (S (requests s + k)) (log s ++ attempts_log a b 0 (S k))).
Proof.
  intros Hk Hfail Hlast. rewrite fetch_unrolled. cbn zeta.
  destruct k as [|[|[|k]]]; [| | |lia].
  - rewrite Nat.add_0_r in *. rewrite Hlast. reflexivity.
  - pose proof (Hfail 0%nat ltac:(lia)) as H0.
    rewrite Nat.add_0_r in H0. rewrite Nat.add_1_r in *.
    rewrite H0, Hlast. reflexivity.
  - pose proof (Hfail 0%nat ltac:(lia)) as H0.
    pose proof (Hfail 1%nat ltac:(lia)) as H1.
    rewrite Nat.add_0_r in H0. rewrite Nat.add_1_r in H1.
    replace (requests s + 2)%nat with (S (S (requests s))) in * by lia.
    rewrite H0, H1, Hlast. reflexivity.
Qed.

(** Three retryable failures in a row end it with the cause of the third. *)
Lemma fetch_exhausts net a b gu dong s :
  (forall i, (i < 3)%nat -> retryable (net (requests s + i)%nat a b) = true) ->
  fetch_data_async net a b gu dong 3 s =
    ((None, Some (cause a b (net (requests s + 2)%nat a b))),
     State (requests s + 3) (log s ++ attempts_log a b 0 3)).
Proof.
  intros Hfail. rewrite fetch_unrolled. cbn zeta.
  pose proof (Hfail 0%nat ltac:(lia)) as H0.
  pose proof (Hfail 1%nat ltac:(lia)) as H1.
  pose proof (Hfail 2%nat ltac:(lia)) as H2.
  rewrite Nat.add_0_r in H0. rewrite Nat.add_1_r in H1.
  replace (requests s + 2)%nat with (S (S (requests s))) in * by lia.
  replace (requests s + 3)%nat with (S (S (S (requests s)))) by lia.
  rewrite H0, H1, H2. reflexivity.
Qed.

(** The fetch stops at the first attempt that is not a retryable failure,
    and after the third attempt at the latest. *)
Lemma fetch_attempts net a b gu dong s :
  exists n : nat,
    (1 <= n <= 3)%nat
    /\ (forall i, (i < n - 1)%nat ->
          retryable (net (requests s + i)%nat a b) = true)
    /\ snd (fetch_data_async net a b gu dong 3 s) =
         State (requests s + n) (log s ++ attempts_log a b 0 n)
    /\ fst (fetch_data_async net a b gu dong 3 s) =
         (let o := net (requests s + (n - 1))%nat a b in
          if retryable o then (None, Some (cause a b o))
          else settled gu dong o)
    /\ (retryable (net (requests s + (n - 1))%nat a b) = true -> n = 3%nat).
Proof.
  destruct (retryable (net (requests s + 0)%nat a b)) eqn:H0.
  2:{ exists 1%nat. change (1 - 1)%nat with 0%nat.
      rewrite (fetch_settles net a b gu dong s 0) by (auto; intros; lia).
      cbn [fst snd]. rewrite H0.
      split; [lia|]. split; [intros; lia|].
      split; [f_equal; lia|]. split; [reflexivity|discriminate]. }
  destruct (retryable (net (requests s + 1)%nat a b)) eqn:H1.
  2:{ exists 2%nat. change (2 - 1)%nat with 1%nat.
      assert (Hprev : forall i, (i < 1)%nat ->
                retryable (net (requests s + i)%nat a b) = true).
      { intros i Hi. replace i with 0%nat by lia. exact H0. }
      rewrite (fetch_settles net a b gu dong s 1) by (auto; lia).
      cbn [fst snd]. rewrite H1.
      split; [lia|]. split; [exact Hprev|].
      split; [f_equal; lia|]. split; [reflexivity|discriminate]. }
  assert (Hprev : forall i, (i < 2)%nat ->
            retryable (net (requests s + i)%nat a b) = true).
  { intros i Hi. destruct i as [|[|i]]; [exact H0|exact H1|lia]. }
  exists 3%nat. change (3 - 1)%nat with 2%nat.
  split; [lia|]. split; [exact Hprev|].
  destruct (retryable (net (requests s + 2)%nat a b)) eqn:H2.
  - rewrite fetch_exhausts.
    + cbn [fst snd]. rewrite H2. repeat split; auto.
    + intros i Hi. destruct i as [|[|[|i]]]; [exact H0|exact H1|exact H2|lia].
  - rewrite (fetch_settles net a b gu dong s 2) by (auto; lia).
    cbn [fst snd]. rewrite H2.
    split; [f_equal; lia|]. split; [reflexivity|discriminate].
Qed.

(** An outcome that is neither a retryable failure, nor a row list, nor the
    no-data answer has an unexpected shape. *)
Lemma settled_error gu dong o e :
  retryable o = false ->
  settled gu dong o = (None, Some e) ->
  malformed o = true /\ e = "잘못된 응답 형식".
Proof.
  unfold settled, rows_of, no_data, malformed, retryable.
  destruct o as [| msg | status body]; try discriminate.
  destruct (status =? 200); [|discriminate].
  destruct (tbLnOpendataRentV body) as [[c [rows|] [r|]]|]; cbn;
    try discriminate.
  - destruct (eq_str (get r "CODE") "INFO-200"); discriminate.
  - intros _ H. injection H as <-. auto.
  - intros _ H. injection H as <-. auto.
Qed.

(** A body of unexpected shape is no retryable failure; it is answered with
    the error for a wrong response format. *)
Lemma malformed_settled gu dong o :
  malformed o = true ->
  retryable o = false /\ settled gu dong o = (None, Some "잘못된 응답 형식").
Proof.
  unfold malformed, retryable, settled, rows_of, no_data.
  destruct o as [| msg | status body]; try discriminate.
  destruct (status =? 200); [|discriminate].
  destruct (tbLnOpendataRentV body) as [[c [rows|] [r|]]|]; cbn;
    try discriminate; auto.
Qed.

Lemma cause_not_fall_through a b o :
  retryable o = true -> cause a b o <> "최대 재시도 횟수 초과".
Proof.
  unfold retryable, cause.
  destruct o as [| msg | status body].
  - intros _. cbn [String.append]. discriminate.
  - intros _. cbn [String.append]. discriminate.
  - destruct (status =? 200).
    + destruct (tbLnOpendataRentV body) as [[c [rows|] [r|]]|];
        discriminate.
    + intros _. cbn [String.append]. discriminate.
Qed.

Lemma settled_not_fall_through gu dong o :
  settled gu dong o <> (None, Some "최대 재시도 횟수 초과").
Proof.
  unfold settled.
  destruct (rows_of o); [discriminate|].
  destruct (no_data o); discriminate.
Qed.

(** ** Properties of fetch_data_async *)

(** C10.  With the three attempts of the default [max_retries], the retry
    loop itself produces the result, on an attempt of index at most 2: the
    loop never runs to its end, and the value returned after the loop, the
    error "최대 재시도 횟수 초과", is never the result of
    [fetch_data_async]. *)
Theorem fetch_never_falls_through (net : network) (start_idx end_idx : Z)
    (gu_code dong_code : option code) (s : state) :
  (exists res,
      fst (retry_loop net start_idx end_idx gu_code dong_code 3 (seqZ 0 3) s)
        = Some res
      /\ fst (fetch_data_async net start_idx end_idx gu_code dong_code 3 s)
           = res)
  /\ fst (fetch_data_async net start_idx end_idx gu_code dong_code 3 s)
       <> (None, Some "최대 재시도 횟수 초과")
  /\ (requests (snd (fetch_data_async net start_idx end_idx gu_code
                       dong_code 3 s)) <= requests s + 3)%nat.
Proof.
  rewrite fetch_unrolled, retry_loop_unrolled. cbn zeta.
  destruct (retryable (net (requests s) start_idx end_idx)) eqn:H0.
  2:{ cbn [fst snd requests]. repeat split; eauto using settled_not_fall_through.
      lia. }
  destruct (retryable (net (S (requests s)) start_idx end_idx)) eqn:H1.
  2:{ cbn [fst snd requests]. repeat split; eauto using settled_not_fall_through.
      lia. }
  cbn [fst snd requests]. repeat split; eauto; [|lia].
  destruct (retryable (net (S (S (requests s))) start_idx end_idx)) eqn:H2.
  - intros H. injection H as H. revert H. now apply cause_not_fall_through.
  - apply settled_not_fall_through.
Qed.


(** A success response without the data set's key is no retryable failure:
    the error for a wrong response format is returned on the attempt that
    receives it, after one request, without a sleep or a retry. *)
Example fetch_error_after_one_attempt :
  retryable (net_missing_key 0%nat 1 100) = false
  /\ fetch_data_async net_missing_key 1 100 None None 3 s0
     = ((None, Some "잘못된 응답 형식"), State 1 [Get 1 100]).
Proof. split; reflexivity. Qed.

(** C7 as the specification words it, that the rows come back verbatim for
    every value of the two filter arguments, fails: with a district filter
    the row of another district is dropped. *)
Lemma fetch_rows_not_verbatim :
  ~ (forall gu_code dong_code : option code,
        fst (fetch_data_async net_rows 1 100 gu_code dong_code 3 s0)
          = (Some [row_gu11; row_gu22], None)).
Proof.
  intros H. specialize (H (Some (CStr "22")) None).
  vm_compute in H. discriminate H.
Qed.

(** C7, as the code has it.  A success response with a row list ends the
    fetch on the attempt that receives it; the value returned is the
    client-side filter of its rows, which is the row list itself when both
    filter arguments are absent. *)
Theorem fetch_rows_filtered (net : network) (start_idx end_idx : Z)
    (gu_code dong_code : option code) (s : state) (k : nat)
    (rows : list record) :
  (k < 3)%nat ->
  (forall i, (i < k)%nat ->
     retryable (net (requests s + i)%nat start_idx end_idx) = true) ->
  rows_of (net (requests s + k)%nat start_idx end_idx) = Some rows ->
  fst (fetch_data_async net start_idx end_idx gu_code dong_code 3 s)
    = (Some (client_side_filter gu_code dong_code rows), None)
  /\ (truthy gu_code = false -> truthy dong_code = false ->
      fst (fetch_data_async net start_idx end_idx gu_code dong_code 3 s)
        = (Some rows, None)).
Proof.
  intros Hk Hprev Hrows.
  assert (Hr : retryable (net (requests s + k)%nat start_idx end_idx) = false).
  { revert Hrows. unfold rows_of, retryable.
    destruct (net (requests s + k)%nat start_idx end_idx)
      as [| msg | status body]; try discriminate.
    destruct (status =? 200); [|discriminate].
    destruct (tbLnOpendataRentV body) as [[c [l|] r]|]; cbn; try discriminate.
    reflexivity. }
  rewrite (fetch_settles net start_idx end_idx gu_code dong_code s k)
    by assumption.
  cbn [fst]. unfold settled. rewrite Hrows.
  split; [reflexivity|].
  intros Hgu Hdong. unfold client_side_filter. rewrite Hgu, Hdong. reflexivity.
Qed.

Lemma fetch_rows_filtered_witness :
  fst (fetch_data_async net_rows 1 100 (Some (CInt 11)) None 3 s0)
    = (Some (client_side_filter (Some (CInt 11)) None [row_gu11; row_gu22]),
       None).
Proof.
  apply (fetch_rows_filtered net_rows 1 100 (Some (CInt 11)) None s0 0
           [row_gu11; row_gu22]).
  - lia.
  - intros i Hi. lia.
  - reflexivity.
Defined.

(** C9.  A success response that carries, in place of a row list, a RESULT
    with the code INFO-200 ends the fetch on the attempt that receives it:
    the result is the empty list with no error, the attempt does not count
    as a retryable failure, and no sleep and no further request follow. *)
Theorem fetch_no_data (net : network) (start_idx end_idx : Z)
    (gu_code dong_code : option code) (s : state) (k : nat)
    (count : option Z) (r : gmap string value) (txt : string) :
  (k < 3)%nat ->
  (forall i, (i < k)%nat ->
     retryable (net (requests s + i)%nat start_idx end_idx) = true) ->
  net (requests s + k)%nat start_idx end_idx
    = Response 200 (Data (Some (Envelope count None (Some r))) txt) ->
  get r "CODE" = VStr "INFO-200" ->
  fetch_data_async net start_idx end_idx gu_code dong_code 3 s
    = ((Some [], None),
       State (S (requests s + k))
         (log s ++ attempts_log start_idx end_idx 0 (S k)))
  /\ retryable (net (requests s + k)%nat start_idx end_idx) = false.
Proof.
  intros Hk Hprev Hnet Hcode.
  assert (Hr : retryable (net (requests s + k)%nat start_idx end_idx) = false).
  { rewrite Hnet. cbn. rewrite Hcode. reflexivity. }
  split; [|exact Hr].
  rewrite (fetch_settles net start_idx end_idx gu_code dong_code s k)
    by assumption.
  rewrite Hnet. unfold settled. cbn. rewrite Hcode. reflexivity.
Qed.

Lemma fetch_no_data_witness :
  fetch_data_async net_500_then_no_data 1 100 None None 3 s0
    = ((Some [], None),
       State 2 [Get 1 100; Sleep (inject_Z (2 ^ 0)); Get 1 100])
  /\ retryable (net_500_then_no_data 1%nat 1 100) = false.
Proof.
  apply (fetch_no_data net_500_then_no_data 1 100 None None s0 1 None
           {[ "CODE" := VStr "INFO-200"; "MESSAGE" := VStr "no data" ]} "").
  - lia.
  - intros i Hi. replace i with 0%nat by lia. reflexivity.
  - reflexivity.
  - reflexivity.
Defined.

(** ** The client-side filter *)

Lemma eq_str_true v s : eq_str v s = true <-> v = VStr s.
Proof.
  destruct v as [| z | t]; cbn; try (split; [discriminate|discriminate]).
  rewrite String.eqb_eq. split; [intros ->; reflexivity|].
  intros H. injection H as ->. reflexivity.
Qed.

Lemma get_str (r : record) k s : get r k = VStr s <-> r !! k = Some (VStr s).
Proof.
  unfold get. destruct (r !! k) as [v|]; cbn; [|split; discriminate].
  split; [intros ->; reflexivity|]. intros H. injection H as ->. reflexivity.
Qed.

Lemma filter_rows_filter gu dong (rows : list record) :
  filter_rows gu dong rows = filter (passes gu dong) rows.
Proof.
  induction rows as [|r rest IH]; [reflexivity|].
  cbn [filter_rows]. rewrite IH.
  destruct (truthy gu) eqn:Hgu, (truthy dong) eqn:Hdong; cbn [andb].
  all: destruct (eq_str (get r "CGG_CD") (str gu)) eqn:E1;
       destruct (eq_str (get r "STDG_CD") (str dong)) eqn:E2; cbn [negb].
  all: try apply eq_str_true in E1; try apply eq_str_true in E2.
  all: first
    [ rewrite filter_cons_True; [reflexivity|];
      unfold passes; rewrite ?Hgu, ?Hdong; split; intros; auto; discriminate
    | rewrite filter_cons_False; [reflexivity|];
      unfold passes; rewrite ?Hgu, ?Hdong; intros [H1 H2];
      first [ specialize (H1 eq_refl); apply eq_str_true in H1; congruence
            | specialize (H2 eq_refl); apply eq_str_true in H2; congruence ] ].
Qed.

Lemma filter_rows_absent gu dong (rows : list record) :
  truthy gu = false -> truthy dong = false -> filter (passes gu dong) rows = rows.
Proof.
  intros Hgu Hdong. induction rows as [|r rest IH]; [reflexivity|].
  rewrite filter_cons_True, IH; [reflexivity|].
  unfold passes. rewrite Hgu, Hdong. split; discriminate.
Qed.

Lemma client_side_filter_filter gu dong (rows : list record) :
  client_side_filter gu dong rows = filter (passes gu dong) rows.
Proof.
  unfold client_side_filter.
  destruct (truthy gu) eqn:Hgu; cbn [orb]; [apply filter_rows_filter|].
  destruct (truthy dong) eqn:Hdong; [apply filter_rows_filter|].
  symmetry. now apply filter_rows_absent.
Qed.

(** C4.  For every row list and every pair of filter arguments, a record is
    in the output of the client-side filter exactly when it is in the input
    and its CGG_CD field is the string of the district code, if that filter
    is present, and its STDG_CD field is the string of the sub-district
    code, if that filter is present; the comparison is equality of strings.
    The output is a sub-list of the input in the input's order, and it is
    the input itself when both filter components are absent. *)
Theorem client_side_filter_spec (gu_code dong_code : option code)
    (rows : list record) :
  (forall r : record,
      r ∈ client_side_filter gu_code dong_code rows
      <-> r ∈ rows
          /\ (truthy gu_code = true -> r !! "CGG_CD" = Some (VStr (str gu_code)))
          /\ (truthy dong_code = true ->
              r !! "STDG_CD" = Some (VStr (str dong_code))))
  /\ client_side_filter gu_code dong_code rows
       = filter (passes gu_code dong_code) rows
  /\ client_side_filter gu_code dong_code rows `sublist_of` rows
  /\ (truthy gu_code = false -> truthy dong_code = false ->
      client_side_filter gu_code dong_code rows = rows).
Proof.
  rewrite client_side_filter_filter.
  split; [|split; [reflexivity|split]].
  - intros r. rewrite list_elem_of_filter. unfold passes.
    rewrite <- !get_str. tauto.
  - apply sublist_filter.
  - apply filter_rows_absent.
Qed.

(** ** The collector's loop *)

Lemma collect_loop_step net total gu dong cb cur acc s :
  cur <= total ->
  collect_loop net total gu dong cb cur acc s =
    let end_idx := Z.min (cur + batch_size - 1) total in
    collect_loop net total gu dong cb (end_idx + 1)
      (fst (collect_window net total gu dong cb cur end_idx acc s))
      (snd (collect_window net total gu dong cb cur end_idx acc s)).
Proof.
  intros H. rewrite collect_loop_equation_1.
  destruct (decide (cur <= total)) as [Hd|Hn]; [reflexivity|contradiction].
Qed.

Lemma collect_loop_done net total gu dong cb cur acc s :
  total < cur -> collect_loop net total gu dong cb cur acc s = (acc, s).
Proof.
  intros H. rewrite collect_loop_equation_1.
  destruct (decide (cur <= total)) as [Hn|Hd]; [lia|reflexivity].
Qed.

(** [pages] is the ceiling of total_count / 100. *)
Lemma pages_ceiling total :
  batch_size * (pages total - 1) < total <= batch_size * pages total.
Proof.
  unfold pages, batch_size. Z.to_euclidean_division_equations. lia.
Qed.

Lemma pages_nonneg total : 0 <= total -> 0 <= pages total.
Proof.
  intros H. unfold pages, batch_size. Z.to_euclidean_division_equations. lia.
Qed.

(** From the end of window [k - 1] on, the loop visits the windows [k],
    [k + 1], ... in turn. *)
Lemma collect_loop_pages net total gu dong cb (n : nat) :
  forall k acc s,
    0 <= k ->
    Z.of_nat n = pages total - k ->
    collect_loop net total gu dong cb (Z.min (batch_size * k) total + 1) acc s
      = foldl (visit net total gu dong cb) (acc, s)
          (page_range total <$> seqZ k (Z.of_nat n)).
Proof.
  pose proof (pages_ceiling total) as Hc.
  induction n as [|n IH]; intros k acc s Hk Hn.
  - rewrite seqZ_nil by lia. cbn [fmap list_fmap foldl].
    apply collect_loop_done. unfold batch_size in *. nia.
  - rewrite seqZ_cons by lia. rewrite fmap_cons. cbn [foldl].
    assert (Hlt : batch_size * k < total) by (unfold batch_size in *; nia).
    rewrite Z.min_l by lia.
    rewrite collect_loop_step by lia. cbn zeta.
    replace (Z.min (batch_size * k + 1 + batch_size - 1) total)
      with (Z.min (batch_size * k + batch_size) total) by (f_equal; lia).
    replace (Z.min (batch_size * k + batch_size) total)
      with (Z.min (batch_size * Z.succ k) total) at 1 by (f_equal; lia).
    replace (Z.pred (Z.of_nat (S n))) with (Z.of_nat n) by lia.
    rewrite IH by lia.
    f_equal. unfold visit, page_range. cbn [fst snd].
    symmetry. apply surjective_pairing.
Qed.

(** ** The windows *)

Lemma length_page_ranges total :
  length (page_ranges total) = Z.to_nat (pages total).
Proof. unfold page_ranges. rewrite length_fmap. apply length_seqZ. Qed.

Lemma page_ranges_lookup total (k : nat) (w : Z * Z) :
  page_ranges total !! k = Some w
  <-> Z.of_nat k < pages total /\ w = page_range total (Z.of_nat k).
Proof.
  unfold page_ranges. rewrite list_lookup_fmap, fmap_Some.
  setoid_rewrite lookup_seqZ.
  split.
  - intros (x & [-> Hk] & ->). rewrite Z.add_0_l. auto.
  - intros [Hk ->]. exists (Z.of_nat k). rewrite Z.add_0_l. auto.
Qed.

(** ** One window of the collector *)

Lemma cause_nonempty a b o : retryable o = true -> cause a b o <> "".
Proof.
  unfold retryable, cause.
  destruct o as [| msg | status body]; try discriminate.
  destruct (status =? 200); [|discriminate].
  destruct (tbLnOpendataRentV body) as [[c [rows|] [r|]]|]; discriminate.
Qed.

(** The error of a fetch is never the empty string, and a fetch never
    returns rows together with an error. *)
Lemma fetch_error net a b gu dong s d e :
  fst (fetch_data_async net a b gu dong 3 s) = (d, Some e) ->
  d = None /\ truthy_str (Some e) = true.
Proof.
  destruct (fetch_attempts net a b gu dong s) as (n & _ & _ & _ & Hfst & _).
  rewrite Hfst. cbn zeta.
  destruct (retryable (net (requests s + (n - 1))%nat a b)) eqn:Hr.
  - intros H. injection H as <- <-. split; [reflexivity|].
    pose proof (cause_nonempty a b _ Hr) as Hne. cbn.
    destruct (cause a b (net (requests s + (n - 1))%nat a b));
      [contradiction|reflexivity].
  - unfold settled. destruct (rows_of _); [discriminate|].
    destruct (no_data _); [discriminate|].
    intros H. injection H as <- <-. split; reflexivity.
Qed.

Lemma warnings_app l1 l2 : warnings (l1 ++ l2) = warnings l1 ++ warnings l2.
Proof.
  induction l1 as [|e l1 IH]; [reflexivity|].
  destruct e as [| | a b t c st [w|] | |]; cbn; rewrite IH; reflexivity.
Qed.

Lemma warnings_attempts_log a b i n : warnings (attempts_log a b i n) = [].
Proof.
  revert i. induction n as [|n IH]; intros i; [reflexivity|].
  destruct n as [|n]; [reflexivity|].
  change (warnings (attempts_log a b (i + 1) (S n)) = []). apply IH.
Qed.

Lemma call_progress_run cb e s :
  call_progress cb e s
    = (tt, State (requests s) (log s ++ when_callback cb e)).
Proof.
  destruct cb; [reflexivity|].
  cbn. rewrite app_nil_r. destruct s; reflexivity.
Qed.

(** The window whose fetch returns an error. *)
Lemma collect_window_error net total gu dong cb cur end_idx acc s d e :
  fst (fetch_data_async net cur end_idx gu dong 3
         (State (requests s)
            (log s ++ when_callback cb (announce cur end_idx total acc))))
    = (d, Some e) ->
  collect_window net total gu dong cb cur end_idx acc s
    = (acc,
       let s2 := snd (fetch_data_async net cur end_idx gu dong 3
                        (State (requests s)
                           (log s ++ when_callback cb
                                       (announce cur end_idx total acc)))) in
       State (requests s2)
         (log s2 ++ when_callback cb (warning cur end_idx total acc e)
            ++ [Sleep 1%Q])).
Proof.
  intros Hfetch.
  pose proof (fetch_error _ _ _ _ _ _ _ _ Hfetch) as [-> Htruthy].
  unfold collect_window, sleep, emit, bind, ret.
  fold (announce cur end_idx total acc).
  rewrite call_progress_run.
  destruct (fetch_data_async net cur end_idx gu dong 3 _) as [[d' e'] s2].
  cbn [fst snd] in *. injection Hfetch as -> ->.
  rewrite Htruthy. cbn [str_error default].
  fold (warning cur end_idx total acc e).
  rewrite call_progress_run. cbn [requests log].
  rewrite <- app_assoc. reflexivity.
Qed.

(** The window whose fetch returns rows. *)
Lemma collect_window_rows net total gu dong cb cur end_idx acc s rows :
  fst (fetch_data_async net cur end_idx gu dong 3
         (State (requests s)
            (log s ++ when_callback cb (announce cur end_idx total acc))))
    = (Some rows, None) ->
  collect_window net total gu dong cb cur end_idx acc s
    = (acc ++ rows,
       let s2 := snd (fetch_data_async net cur end_idx gu dong 3
                        (State (requests s)
                           (log s ++ when_callback cb
                                       (announce cur end_idx total acc)))) in
       State (requests s2) (log s2 ++ [Sleep (1 # 5)%Q])).
Proof.
  intros Hfetch.
  unfold collect_window, sleep, emit, bind, ret.
  fold (announce cur end_idx total acc).
  rewrite call_progress_run.
  destruct (fetch_data_async net cur end_idx gu dong 3 _) as [[d' e'] s2].
  cbn [fst snd] in *. injection Hfetch as -> ->.
  cbn [truthy_str]. destruct rows as [|r rest]; [rewrite app_nil_r|]; reflexivity.
Qed.

Lemma warnings_when_announce cb a b t acc :
  warnings (when_callback cb (announce a b t acc)) = [].
Proof. destruct cb; reflexivity. Qed.

Lemma warnings_when_warning cb a b t acc e :
  warnings (when_callback cb (warning a b t acc e))
    = when_callback cb (warning a b t acc e).
Proof. destruct cb; reflexivity. Qed.

Lemma window_failure net total gu dong cb cur acc s d e :
  cur <= total ->
  fst (fetch_data_async net cur (Z.min (cur + batch_size - 1) total) gu dong 3
         (State (requests s)
            (log s ++ when_callback cb
                        (announce cur (Z.min (cur + batch_size - 1) total)
                           total acc))))
    = (d, Some e) ->
  exists n : nat,
    (1 <= n <= 3)%nat
    /\ let end_idx := Z.min (cur + batch_size - 1) total in
       let events :=
         when_callback cb (announce cur end_idx total acc)
           ++ attempts_log cur end_idx 0 n
           ++ when_callback cb (warning cur end_idx total acc e)
           ++ [Sleep 1%Q] in
       let s' := State (requests s + n) (log s ++ events) in
       collect_window net total gu dong cb cur end_idx acc s = (acc, s')
       /\ warnings events
            = when_callback cb (warning cur end_idx total acc e)
       /\ collect_loop net total gu dong cb cur acc s
            = collect_loop net total gu dong cb (end_idx + 1) acc s'.
Proof.
  intros Hcur Hfetch.
  set (end_idx := Z.min (cur + batch_size - 1) total) in *.
  set (s1 := State (requests s)
               (log s ++ when_callback cb (announce cur end_idx total acc)))
    in *.
  destruct (fetch_attempts net cur end_idx gu dong s1)
    as (n & Hn & _ & Hsnd & _ & _).
  exists n. split; [exact Hn|]. cbn zeta.
  assert (Hw : collect_window net total gu dong cb cur end_idx acc s
               = (acc,
                  State (requests s + n)
                    (log s ++ when_callback cb (announce cur end_idx total acc)
                       ++ attempts_log cur end_idx 0 n
                       ++ when_callback cb (warning cur end_idx total acc e)
                       ++ [Sleep 1%Q]))).
  { rewrite (collect_window_error net total gu dong cb cur end_idx acc s d e)
      by exact Hfetch.
    fold s1. rewrite Hsnd. cbn zeta. unfold s1. cbn [requests log].
    rewrite <- !app_assoc. reflexivity. }
  split; [exact Hw|]. split.
  - rewrite !warnings_app, warnings_attempts_log, warnings_when_announce,
      warnings_when_warning.
    cbn [warnings app]. apply app_nil_r.
  - rewrite collect_loop_step by exact Hcur. cbn zeta. fold end_idx.
    rewrite Hw. reflexivity.
Qed.

Lemma announced_app l1 l2 :
  announced (l1 ++ l2) = announced l1 ++ announced l2.
Proof.
  induction l1 as [|e l1 IH]; [reflexivity|].
  destruct e as [| | a b t c [st|] [w|] | |]; cbn; rewrite IH; reflexivity.
Qed.

Lemma announced_attempts_log a b i n : announced (attempts_log a b i n) = [].
Proof.
  revert i. induction n as [|n IH]; intros i; [reflexivity|].
  destruct n as [|n]; [reflexivity|].
  change (announced (attempts_log a b (i + 1) (S n)) = []). apply IH.
Qed.

(** A fetch returns rows and no error, or an error and no rows. *)
Lemma fetch_result net a b gu dong s :
  (exists rows, fst (fetch_data_async net a b gu dong 3 s) = (Some rows, None))
  \/ (exists e, fst (fetch_data_async net a b gu dong 3 s) = (None, Some e)).
Proof.
  destruct (fetch_attempts net a b gu dong s) as (n & _ & _ & _ & -> & _).
  cbn zeta. destruct (retryable _); [right; eauto|].
  unfold settled. destruct (rows_of _); [left; eauto|].
  destruct (no_data _); [left|right]; eauto.
Qed.

(** With a callback, one pass of the loop announces its window once. *)
Lemma collect_window_announced net total gu dong cur end_idx acc s :
  exists events,
    log (snd (collect_window net total gu dong true cur end_idx acc s))
      = log s ++ events
    /\ announced events = [(cur, end_idx)].
Proof.
  set (s1 := State (requests s)
               (log s ++ when_callback true (announce cur end_idx total acc))).
  destruct (fetch_attempts net cur end_idx gu dong s1)
    as (n & _ & _ & Hsnd & _ & _).
  destruct (fetch_result net cur end_idx gu dong s1) as [[rows H]|[e H]].
  - rewrite (collect_window_rows net total gu dong true cur end_idx acc s rows)
      by exact H.
    fold s1. rewrite Hsnd. cbn [snd log s1 when_callback].
    eexists. rewrite <- !app_assoc. split; [reflexivity|].
    rewrite !announced_app, announced_attempts_log. reflexivity.
  - rewrite (collect_window_error net total gu dong true cur end_idx acc s
               None e) by exact H.
    fold s1. rewrite Hsnd. cbn [snd log s1 when_callback].
    eexists. rewrite <- !app_assoc. split; [reflexivity|].
    rewrite !announced_app, announced_attempts_log. reflexivity.
Qed.

Lemma foldl_visit_announced net total gu dong (ranges : list (Z * Z)) :
  forall acc s,
    exists events,
      log (snd (foldl (visit net total gu dong true) (acc, s) ranges))
        = log s ++ events
      /\ announced events = ranges.
Proof.
  induction ranges as [|[a b] rest IH]; intros acc s.
  - exists []. rewrite app_nil_r. auto.
  - cbn [foldl]. unfold visit at 2. cbn [fst snd].
    destruct (collect_window_announced net total gu dong a b acc s)
      as (ev1 & Hlog1 & Hann1).
    destruct (collect_window net total gu dong true a b acc s) as [acc' s'].
    cbn [snd] in Hlog1.
    destruct (IH acc' s') as (ev2 & Hlog2 & Hann2).
    exists (ev1 ++ ev2). rewrite Hlog2, Hlog1, <- app_assoc.
    split; [reflexivity|].
    rewrite announced_app, Hann1, Hann2. reflexivity.
Qed.

(** C1.  For every total_count >= 0 the loop of [collect_data_sequential]
    ends, and it has run its body once on each window of [page_ranges], in
    their order, whatever the network answers.  There are
    ceil(total_count / 100) windows.  Window [k] starts at 100 * k + 1; it
    has 100 offsets, except that the last one ends at total_count.  Each
    window starts right after the one before it, so the windows are
    disjoint and in strictly increasing order, and every offset of
    1 .. total_count lies in exactly one of them.  With a progress callback
    the run shows it: the windows announced, in their order, are exactly
    these. *)
Theorem collector_visits_every_window (net : network) (total_count : Z)
    (gu_code dong_code : option code) (progress_callback : bool) (s : state) :
  0 <= total_count ->
  collect_data_sequential net total_count gu_code dong_code progress_callback s
    = foldl (visit net total_count gu_code dong_code progress_callback)
        ([], s) (page_ranges total_count)
  /\ length (page_ranges total_count) = Z.to_nat (pages total_count)
  /\ batch_size * (pages total_count - 1) < total_count
       <= batch_size * pages total_count
  /\ (forall (k : nat) (a b : Z),
        page_ranges total_count !! k = Some (a, b) ->
        a = batch_size * Z.of_nat k + 1
        /\ 1 <= a <= b /\ b <= total_count
        /\ ((S k < length (page_ranges total_count))%nat ->
            b - a + 1 = batch_size)
        /\ (S k = length (page_ranges total_count) -> b = total_count))
  /\ (forall (k : nat) (a b c d : Z),
        page_ranges total_count !! k = Some (a, b) ->
        page_ranges total_count !! S k = Some (c, d) ->
        c = b + 1)
  /\ (forall (j k : nat) (a b c d : Z),
        (j < k)%nat ->
        page_ranges total_count !! j = Some (a, b) ->
        page_ranges total_count !! k = Some (c, d) ->
        b < c)
  /\ (forall i : Z,
        1 <= i <= total_count ->
        exists (k : nat) (a b : Z),
          page_ranges total_count !! k = Some (a, b) /\ a <= i <= b
          /\ forall (j : nat) (c d : Z),
               page_ranges total_count !! j = Some (c, d) ->
               c <= i <= d -> j = k)
  /\ (progress_callback = true ->
      exists events : list event,
        log (snd (collect_data_sequential net total_count gu_code dong_code
                    progress_callback s))
          = log s ++ events
        /\ announced events = page_ranges total_count).
Proof.
  intros Htotal.
  pose proof (pages_ceiling total_count) as Hc.
  pose proof (pages_nonneg total_count Htotal) as Hp.
  assert (Hfold :
    collect_data_sequential net total_count gu_code dong_code
      progress_callback s
    = foldl (visit net total_count gu_code dong_code progress_callback)
        ([], s) (page_ranges total_count)).
  { unfold collect_data_sequential, page_ranges.
    pose proof (collect_loop_pages net total_count gu_code dong_code
                  progress_callback (Z.to_nat (pages total_count)) 0 [] s)
      as H.
    rewrite Z2Nat.id in H by lia.
    rewrite <- H by lia.
    f_equal. unfold batch_size. lia. }
  split; [exact Hfold|split; [apply length_page_ranges|split; [exact Hc|]]].
  rewrite length_page_ranges.
  unfold batch_size in *.
  split; [|split; [|split; [|split]]].
  - intros k a b H.
    apply page_ranges_lookup in H as [Hk Hw].
    unfold page_range, batch_size in Hw. injection Hw as -> ->.
    repeat split; lia.
  - intros k a b c d H1 H2.
    apply page_ranges_lookup in H1 as [Hk1 Hw1].
    apply page_ranges_lookup in H2 as [Hk2 Hw2].
    unfold page_range, batch_size in *.
    injection Hw1 as -> ->. injection Hw2 as -> ->. lia.
  - intros j k a b c d Hjk H1 H2.
    apply page_ranges_lookup in H1 as [Hk1 Hw1].
    apply page_ranges_lookup in H2 as [Hk2 Hw2].
    unfold page_range, batch_size in *.
    injection Hw1 as -> ->. injection Hw2 as -> ->. lia.
  - intros i Hi.
    exists (Z.to_nat ((i - 1) / 100)).
    exists (100 * ((i - 1) / 100) + 1).
    exists (Z.min (100 * ((i - 1) / 100) + 100) total_count).
    assert (Hq : 0 <= (i - 1) / 100 < pages total_count
                 /\ 100 * ((i - 1) / 100) + 1 <= i
                      <= 100 * ((i - 1) / 100) + 100).
    { Z.to_euclidean_division_equations. lia. }
    split; [|split; [lia|]].
    + apply page_ranges_lookup. rewrite Z2Nat.id by lia.
      split; [lia|]. reflexivity.
    + intros j c d Hj Hcd.
      apply page_ranges_lookup in Hj as [Hj Hw].
      unfold page_range, batch_size in Hw. injection Hw as -> ->.
      lia.
  - intros ->. rewrite Hfold. apply foldl_visit_announced.
Qed.

(** C5 as the specification words it, that every failed window leaves one
    warning-carrying progress event, fails for a run without a progress
    callback, which is the default of the argument: the window 101-200 fails
    its three attempts and the log holds no progress event at all.  The
    rows of the window 1-100 are returned all the same. *)
Lemma failed_window_without_callback :
  collect_data_sequential net_rows_then_500 200 None None false s0
    = ([row_gu11; row_gu22],
       State 4 [Get 1 100; Sleep (1 # 5)%Q;
                Get 101 200; Sleep (inject_Z (2 ^ 0));
                Get 101 200; Sleep (inject_Z (2 ^ 1));
                Get 101 200; Sleep 1%Q])
  /\ warnings
       (log (snd (collect_data_sequential net_rows_then_500 200 None None
                    false s0)))
     = [].
Proof. split; reflexivity. Qed.

(** C5, as the code has it.  When the fetch of a window returns an error,
    the pass over that window leaves the accumulator as it was.  To the log
    it adds the one to three requests of the single fetch with their sleeps
    and a sleep of one second, and, if a progress callback was supplied, the
    announcement of the window before them and exactly one warning that
    names the window's bounds after them; without a callback there is no
    progress event.  The loop then goes on with the next window.  In
    particular, with total_count = 200, a first window answered with rows
    and a second window whose three attempts all fail, the collector returns
    the (filtered) rows of the first window, and with a callback it has
    emitted the one warning for the window 101-200. *)
Theorem failed_window_is_skipped :
  (forall (net : network) (total_count : Z) (gu_code dong_code : option code)
          (progress_callback : bool) (current_idx : Z)
          (all_data : list record) (s : state)
          (d : option (list record)) (e : string),
      current_idx <= total_count ->
      fst (fetch_data_async net current_idx
             (Z.min (current_idx + batch_size - 1) total_count)
             gu_code dong_code 3
             (State (requests s)
                (log s ++ when_callback progress_callback
                            (announce current_idx
                               (Z.min (current_idx + batch_size - 1)
                                  total_count)
                               total_count all_data))))
        = (d, Some e) ->
      exists n : nat,
        (1 <= n <= 3)%nat
        /\ let end_idx := Z.min (current_idx + batch_size - 1) total_count in
           let events :=
             when_callback progress_callback
               (announce current_idx end_idx total_count all_data)
               ++ attempts_log current_idx end_idx 0 n
               ++ when_callback progress_callback
                    (warning current_idx end_idx total_count all_data e)
               ++ [Sleep 1%Q] in
           let s' := State (requests s + n) (log s ++ events) in
           collect_window net total_count gu_code dong_code progress_callback
             current_idx end_idx all_data s = (all_data, s')
           /\ warnings events
                = when_callback progress_callback
                    (warning current_idx end_idx total_count all_data e)
           /\ collect_loop net total_count gu_code dong_code
                progress_callback current_idx all_data s
              = collect_loop net total_count gu_code dong_code
                  progress_callback (end_idx + 1) all_data s')
  /\ (forall (net : network) (gu_code dong_code : option code)
             (progress_callback : bool) (s : state) (rows : list record),
         rows_of (net (requests s) 1 100) = Some rows ->
         (forall i, (i < 3)%nat ->
            retryable (net (requests s + 1 + i)%nat 101 200) = true) ->
         let collected := client_side_filter gu_code dong_code rows in
         let e := cause 101 200 (net (requests s + 3)%nat 101 200) in
         exists events : list event,
           collect_data_sequential net 200 gu_code dong_code
             progress_callback s
             = (collected, State (requests s + 4) (log s ++ events))
           /\ warnings events
              = when_callback progress_callback
                  (warning 101 200 200 collected e)).
Proof.
  split; [intros; eapply window_failure; eauto|].
  intros net gu dong cb s rows Hrows Hfail. cbn zeta.
  unfold collect_data_sequential.
  (* the window 1-100 *)
  rewrite collect_loop_step by lia.
  change (Z.min (1 + batch_size - 1) 200) with 100. cbn zeta.
  assert (Hr0 : retryable (net (requests s + 0)%nat 1 100) = false).
  { rewrite Nat.add_0_r. revert Hrows. unfold rows_of, retryable.
    destruct (net (requests s) 1 100) as [| msg | status body];
      try discriminate.
    destruct (status =? 200); [|discriminate].
    destruct (tbLnOpendataRentV body) as [[c [l|] r]|]; cbn; try discriminate.
    reflexivity. }
  pose proof (fetch_settles net 1 100 gu dong
                (State (requests s)
                   (log s ++ when_callback cb (announce 1 100 200 []))) 0
                ltac:(lia) ltac:(intros; lia) Hr0) as Hf1.
  cbn [requests log] in Hf1. rewrite Nat.add_0_r in Hf1.
  unfold settled in Hf1. rewrite Hrows in Hf1.
  rewrite (collect_window_rows net 200 gu dong cb 1 100 [] s
             (client_side_filter gu dong rows))
    by (rewrite Hf1; reflexivity).
  rewrite Hf1. cbn zeta. cbn [snd fst requests log app].
  (* the window 101-200 *)
  set (s2 := State (S (requests s)) _).
  assert (Hf2 : fetch_data_async net 101 200 gu dong 3
                  (State (requests s2)
                     (log s2 ++ when_callback cb
                                  (announce 101 200 200
                                     (client_side_filter gu dong rows))))
                = ((None, Some (cause 101 200 (net (requests s + 3)%nat 101 200))),
                   State (requests s + 4)
                     (log s2 ++ when_callback cb
                                  (announce 101 200 200
                                     (client_side_filter gu dong rows))
                        ++ attempts_log 101 200 0 3))).
  { rewrite fetch_exhausts.
    - cbn [requests log s2]. rewrite <- app_assoc.
      replace (S (requests s) + 2)%nat with (requests s + 3)%nat by lia.
      replace (S (requests s) + 3)%nat with (requests s + 4)%nat by lia.
      reflexivity.
    - intros i Hi. cbn [requests s2].
      replace (S (requests s) + i)%nat with (requests s + 1 + i)%nat by lia.
      auto. }
  destruct (window_failure net 200 gu dong cb 101
              (client_side_filter gu dong rows) s2 None
              (cause 101 200 (net (requests s + 3)%nat 101 200)))
    as (n & Hn & Hwin & Hwarn & Hloop).
  { lia. }
  { change (Z.min (101 + batch_size - 1) 200) with 200. rewrite Hf2.
    reflexivity. }
  change (Z.min (101 + batch_size - 1) 200) with 200 in *.
  change (100 + 1) with 101.
  rewrite Hloop. change (200 + 1) with 201.
  rewrite collect_loop_done by lia.
  (* three attempts were made *)
  assert (n = 3%nat) as ->.
  { rewrite (collect_window_error net 200 gu dong cb 101 200
               (client_side_filter gu dong rows) s2 None
               (cause 101 200 (net (requests s + 3)%nat 101 200))) in Hwin
      by (rewrite Hf2; reflexivity).
    rewrite Hf2 in Hwin. cbn [snd requests] in Hwin.
    injection Hwin as Hreq _. cbn [requests s2] in Hreq. lia. }
  exists (when_callback cb (announce 1 100 200 [])
            ++ attempts_log 1 100 0 1
            ++ [Sleep (1 # 5)%Q]
            ++ when_callback cb
                 (announce 101 200 200 (client_side_filter gu dong rows))
            ++ attempts_log 101 200 0 3
            ++ when_callback cb
                 (warning 101 200 200 (client_side_filter gu dong rows)
                    (cause 101 200 (net (requests s + 3)%nat 101 200)))
            ++ [Sleep 1%Q]).
  split.
  - f_equal. unfold s2. cbn [requests log].
    rewrite <- !app_assoc. f_equal. lia.
  - rewrite !warnings_app, !warnings_when_announce, warnings_when_warning.
    cbn [warnings attempts_log app]. apply app_nil_r.
Qed.

(** ** get_total_count and get_all_rent_data *)

Lemma get_total_count_state net gu dong s :
  snd (get_total_count net gu dong s) = after_get 1 1000 s.
Proof.
  unfold get_total_count, session_get, bind, ret, after_get.
  destruct (net (requests s) 1 1000) as [| e | status body]; try reflexivity.
  destruct (status =? 200); [|reflexivity].
  destruct (tbLnOpendataRentV body) as [[[c|] rows [r|]]|]; reflexivity.
Qed.

(** The probe returns a count and no error, or no count and an error that
    is not the empty string. *)
Lemma get_total_count_result net gu dong s :
  (exists total_count,
      fst (get_total_count net gu dong s) = (Some total_count, None))
  \/ (exists e,
        fst (get_total_count net gu dong s) = (None, Some e)
        /\ truthy_str (Some e) = true).
Proof.
  unfold get_total_count, session_get, bind, ret.
  destruct (net (requests s) 1 1000) as [| e | status body]; cbn [fst].
  - right. eexists. split; reflexivity.
  - right. eexists. split; reflexivity.
  - destruct (status =? 200).
    + destruct (tbLnOpendataRentV body) as [[[c|] rows [r|]]|]; cbn [fst];
        first [ left; eexists; reflexivity
              | right; eexists; split; reflexivity ].
    + right. eexists. split; reflexivity.
Qed.

(** C8 as the specification words it fails: on a failing transport the
    probe gives up after its first request, with no second request and no
    sleep. *)
Lemma get_total_count_gives_up_at_once :
  get_total_count net_500 None None s0
    = ((None, Some "HTTP 오류: 500"), State 1 [Get 1 1000]).
Proof. reflexivity. Qed.

(** C8, as the code has it.  [get_total_count] issues exactly one request,
    for the window 1..1000, and never sleeps, whatever the answer.  A
    timeout, a raised exception (a failed connection among them) and a
    status other than 200 each become, at once, the error value of the
    run. *)
Theorem get_total_count_single_request (net : network)
    (gu_code dong_code : option code) (s : state) :
  snd (get_total_count net gu_code dong_code s)
    = State (S (requests s)) (log s ++ [Get 1 1000])
  /\ (net (requests s) 1 1000 = TimeoutError ->
      fst (get_total_count net gu_code dong_code s)
        = (None, Some "요청 시간 초과"))
  /\ (forall e, net (requests s) 1 1000 = Exception e ->
      fst (get_total_count net gu_code dong_code s)
        = (None, Some ("오류 발생: " +:+ e)))
  /\ (forall status body,
      net (requests s) 1 1000 = Response status body -> status <> 200 ->
      fst (get_total_count net gu_code dong_code s)
        = (None, Some ("HTTP 오류: " +:+ pretty status))).
Proof.
  split; [apply get_total_count_state|].
  unfold get_total_count, session_get, bind, ret.
  repeat split.
  - intros ->. reflexivity.
  - intros e ->. reflexivity.
  - intros status body -> Hs. apply Z.eqb_neq in Hs. rewrite Hs. reflexivity.
Qed.

Lemma get_total_count_single_request_witness :
  snd (get_total_count net_500 None None s0) = State 1 [Get 1 1000]
  /\ fst (get_total_count net_500 None None s0)
       = (None, Some ("HTTP 오류: " +:+ pretty 500)).
Proof.
  pose proof (get_total_count_single_request net_500 None None s0)
    as (Hs & _ & _ & Hhttp).
  split; [exact Hs|].
  apply (Hhttp 500 (Data None "")); [reflexivity|lia].
Defined.

(** C3.  [get_all_rent_data] returns either records or an error, never both
    and never neither.  When the probe returns an error, that error is the
    result and the run ends in the state the probe left: the collector has
    not been called.  The same holds, with the error "조회된 데이터가
    없습니다.", when the probe's count is zero or absent.  Otherwise the
    collector runs; an empty collection gives the error "데이터 수집 실패",
    which is another message than the one for a zero count, and a non-empty
    one is returned with no error. *)
Theorem get_all_rent_data_outcomes (net : network)
    (gu_code dong_code : option code) (progress_callback : bool) (s : state) :
  let s1 := snd (call_progress progress_callback
                   (Progress 0 0 0 0 (Some "전체 데이터 개수 조회 중...") None)
                   s) in
  let probe := get_total_count net gu_code dong_code s1 in
  let out := get_all_rent_data net gu_code dong_code progress_callback s in
  ((exists records, records <> [] /\ fst out = (Some records, None))
   \/ (exists e, fst out = (None, Some e)))
  /\ (forall count e, fst probe = (count, Some e) ->
        out = ((None, Some e), snd probe))
  /\ (fst probe = (None, None) \/ fst probe = (Some 0, None) ->
        out = ((None, Some "조회된 데이터가 없습니다."), snd probe))
  /\ (forall total_count,
        fst probe = (Some total_count, None) -> total_count <> 0 ->
        let s2 := snd (call_progress progress_callback
                         (Progress 0 0 total_count 0
                            (Some ("총 " +:+ format_thousands total_count
                                     +:+ "건의 데이터 수집 시작..."))
                            None)
                         (snd probe)) in
        let collected := collect_data_sequential net total_count gu_code
                           dong_code progress_callback s2 in
        (fst collected = [] ->
           out = ((None, Some "데이터 수집 실패"), snd collected))
        /\ (fst collected <> [] ->
              out = ((Some (fst collected), None), snd collected)))
  /\ "데이터 수집 실패" <> "조회된 데이터가 없습니다.".
Proof.
  cbn zeta.
  set (s1 := snd (call_progress progress_callback _ s)).
  assert (Hout : get_all_rent_data net gu_code dong_code progress_callback s
           = let r := get_total_count net gu_code dong_code s1 in
             if truthy_str (snd (fst r)) then ((None, snd (fst r)), snd r)
             else match fst (fst r) with
                  | None => ((None, Some "조회된 데이터가 없습니다."), snd r)
                  | Some total_count =>
                      if total_count =? 0
                      then ((None, Some "조회된 데이터가 없습니다."), snd r)
                      else
                        let c := collect_data_sequential net total_count
                                   gu_code dong_code progress_callback
                                   (snd (call_progress progress_callback
                                      (Progress 0 0 total_count 0
                                         (Some ("총 "
                                            +:+ format_thousands total_count
                                            +:+ "건의 데이터 수집 시작..."))
                                         None) (snd r))) in
                        match fst c with
                        | _ :: _ => ((Some (fst c), None), snd c)
                        | [] => ((None, Some "데이터 수집 실패"), snd c)
                        end
                  end).
  { unfold get_all_rent_data, bind, ret. fold s1.
    destruct (call_progress progress_callback _ s) as [[] s1'] eqn:E.
    subst s1. cbn [snd].
    destruct (get_total_count net gu_code dong_code s1') as [[c e] s2].
    cbn [fst snd]. cbn zeta.
    destruct (truthy_str e); [reflexivity|].
    destruct c as [n|]; [|reflexivity].
    destruct (n =? 0); [reflexivity|].
    destruct (call_progress progress_callback _ s2) as [[] s3].
    cbn [snd].
    destruct (collect_data_sequential net n gu_code dong_code
                progress_callback s3) as [[|r rest] s4]; reflexivity. }
  rewrite Hout. cbn zeta. clear Hout.
  destruct (get_total_count_result net gu_code dong_code s1)
    as [[n Hn]|[e [He Ht]]].
  - rewrite Hn. cbn [fst snd truthy_str].
    split; [|split; [|split; [|split]]].
    + destruct (n =? 0); [right; eexists; reflexivity|].
      destruct (fst (collect_data_sequential _ _ _ _ _ _)) as [|r rest] eqn:Ec.
      * right; eexists; reflexivity.
      * left. eexists. split; [|reflexivity]. discriminate.
    + intros count e H. discriminate H.
    + intros [H|H]; [discriminate H|]. injection H as ->. reflexivity.
    + intros total H Hne. injection H as ->.
      apply Z.eqb_neq in Hne. rewrite Hne.
      destruct (fst (collect_data_sequential _ _ _ _ _ _)) as [|r rest] eqn:Ec.
      * split; [reflexivity|]. intros Hc. contradiction.
      * split; [discriminate|]. reflexivity.
    + discriminate.
  - rewrite He. cbn [fst snd]. rewrite Ht.
    split; [|split; [|split; [|split]]].
    + right. eexists. reflexivity.
    + intros count e' H. injection H as <- <-. reflexivity.
    + intros [H|H]; discriminate H.
    + intros total H. discriminate H.
    + discriminate.
Qed.

(** ** Enrichment *)

Lemma geocoded_app l1 l2 : geocoded (l1 ++ l2) = geocoded l1 ++ geocoded l2.
Proof.
  induction l1 as [|e l1 IH]; [reflexivity|].
  destruct e; cbn; rewrite IH; reflexivity.
Qed.

Lemma coordinates_of_failure {F} (float : value -> option F) o :
  geo_failure o = true -> coordinates_of float o = (None, None).
Proof.
  unfold geo_failure, coordinates_of.
  destruct o as [|status documents]; [reflexivity|].
  destruct (status =? 200); [|reflexivity].
  destruct documents as [[|doc rest]|]; cbn; try reflexivity. discriminate.
Qed.

(** The loop issues one request per address, in the order of the list, and
    appends one pair per address. *)
Lemma geocode_loop_run {F} (float : value -> option F) geo total
    (addresses : list string) :
  forall idx coordinates s,
    exists events,
      geocode_loop float geo total idx addresses coordinates s
        = (coordinates
             ++ imap (fun i a => stored float (geo (requests s + i)%nat a))
                  addresses,
           State (requests s + length addresses) (log s ++ events))
      /\ geocoded events = addresses.
Proof.
  induction addresses as [|address rest IH]; intros idx coordinates s.
  - exists []. cbn. rewrite !app_nil_r, Nat.add_0_r. destruct s; auto.
  - cbn [geocode_loop]. unfold bind at 1. unfold get_coordinates.
    destruct (coordinates_of float (geo (requests s) address))
      as [lng lat] eqn:Ec.
    unfold bind at 1.
    set (s1 := State (S (requests s)) (log s ++ [Geocode address])).
    assert (Hstep : exists upd,
               (if (idx + 1) mod 50 =? 0 then emit (Update (idx + 1) total)
                else ret tt) s1
                 = (tt, State (requests s1) (log s1 ++ upd))
               /\ geocoded upd = []).
    { destruct ((idx + 1) mod 50 =? 0).
      - exists [Update (idx + 1) total]. split; reflexivity.
      - exists []. rewrite app_nil_r. destruct s1; split; reflexivity. }
    destruct Hstep as (upd & -> & Hupd).
    destruct (IH (idx + 1) (coordinates ++ [(lat, lng)])
                (State (requests s1) (log s1 ++ upd)))
      as (events & -> & Hev).
    exists ([Geocode address] ++ upd ++ events). split.
    + cbn [requests log s1 length imap]. f_equal.
      * rewrite <- app_assoc. cbn [app]. f_equal. f_equal.
        -- unfold stored. rewrite Nat.add_0_r, Ec. reflexivity.
        -- apply imap_ext. intros i a _. cbn.
           f_equal. f_equal. lia.
      * f_equal; [lia|]. rewrite <- !app_assoc. reflexivity.
    + rewrite !geocoded_app, Hupd, Hev. reflexivity.
Qed.

(** What [get_coordinates] makes of an answer: two floats exactly for a
    status 200 whose first document has an x and a y that both convert, and
    [(None, None)] for every other answer. *)
Lemma coordinates_of_cases {F} (float : value -> option F) o :
  coordinates_of float o = (None, None)
  \/ exists doc rest x y lng lat,
       o = GeoResponse 200 (Some (doc :: rest))
       /\ doc !! "x" = Some x /\ float x = Some lng
       /\ doc !! "y" = Some y /\ float y = Some lat
       /\ coordinates_of float o = (Some lng, Some lat).
Proof.
  unfold coordinates_of.
  destruct o as [|status documents]; [auto|].
  destruct (status =? 200) eqn:Es; [|auto].
  apply Z.eqb_eq in Es. subst status.
  destruct documents as [[|doc rest]|]; [auto| |auto].
  destruct (doc !! "x") as [x|] eqn:Ex; [|auto].
  destruct (float x) as [lng|] eqn:Efx; [|auto].
  destruct (doc !! "y") as [y|] eqn:Ey; [|auto].
  destruct (float y) as [lat|] eqn:Efy; [|auto].
  right. exists doc, rest, x, y, lng, lat. repeat split; auto.
Qed.

Lemma coordinates_of_good {F} (float : value -> option F) doc rest x y
    lng lat :
  doc !! "x" = Some x -> float x = Some lng ->
  doc !! "y" = Some y -> float y = Some lat ->
  coordinates_of float (GeoResponse 200 (Some (doc :: rest)))
    = (Some lng, Some lat).
Proof.
  intros Hx Hfx Hy Hfy. unfold coordinates_of.
  rewrite Z.eqb_refl, Hx, Hfx, Hy, Hfy. reflexivity.
Qed.

(** C6.  The geocoding loop issues one request per record, in the order of
    the input, and its output has one pair per record, in that order: the
    pair at index [i] is the one computed from the answer to request [i]
    alone.  An answer with status 200 whose first document has an x and a y
    that both convert to floats puts the pair (latitude, longitude), that
    is (float of y, float of x), at index [i].  A failure for record [i]
    (a network error, a status other than 200, an empty documents list)
    puts [(None, None)] at index [i], and so does every other answer that
    is not of the good kind; a pair of two floats appears only for a good
    answer.  The pairs at the other indices do not depend on the answer to
    request [i], and the loop goes on to the end of the list. *)
Theorem enrichment_is_per_record {F : Type} (float : value -> option F)
    (geo : geocoder) (addresses : list string) (s : state) :
  let out := main_coordinates float geo addresses s in
  length (fst out) = length addresses
  /\ requests (snd out) = (requests s + length addresses)%nat
  /\ (exists events,
        log (snd out) = log s ++ events /\ geocoded events = addresses)
  /\ (forall (i : nat) (address : string),
        addresses !! i = Some address ->
        fst out !! i
          = Some (stored float (geo (requests s + i)%nat address)))
  /\ (forall (i : nat) (address : string),
        addresses !! i = Some address ->
        geo_failure (geo (requests s + i)%nat address) = true ->
        fst out !! i = Some (None, None))
  /\ (forall (geo' : geocoder) (i : nat),
        (forall (j : nat) (a : string),
            j <> i -> geo' (requests s + j)%nat a = geo (requests s + j)%nat a) ->
        forall j : nat,
          j <> i ->
          fst (main_coordinates float geo' addresses s) !! j = fst out !! j)
  /\ (forall (i : nat) (address : string) (doc : gmap string value)
             (rest : list (gmap string value)) (x y : value) (lng lat : F),
        addresses !! i = Some address ->
        geo (requests s + i)%nat address
          = GeoResponse 200 (Some (doc :: rest)) ->
        doc !! "x" = Some x -> float x = Some lng ->
        doc !! "y" = Some y -> float y = Some lat ->
        fst out !! i = Some (Some lat, Some lng))
  /\ (forall (i : nat) (address : string),
        addresses !! i = Some address ->
        fst out !! i = Some (None, None)
        \/ exists doc rest x y lng lat,
             geo (requests s + i)%nat address
               = GeoResponse 200 (Some (doc :: rest))
             /\ doc !! "x" = Some x /\ float x = Some lng
             /\ doc !! "y" = Some y /\ float y = Some lat
             /\ fst out !! i = Some (Some lat, Some lng)).
Proof.
  cbn zeta. unfold main_coordinates.
  assert (Hrun : forall g,
            exists events,
              geocode_loop float g (Z.of_nat (length addresses)) 0 addresses
                [] s
                = (imap (fun i a => stored float (g (requests s + i)%nat a))
                     addresses,
                   State (requests s + length addresses) (log s ++ events))
              /\ geocoded events = addresses).
  { intros g.
    destruct (geocode_loop_run float g (Z.of_nat (length addresses))
                addresses 0 [] s) as (events & H & Hev).
    exists events. rewrite H. auto. }
  destruct (Hrun geo) as (events & -> & Hev). cbn [fst snd requests log].
  assert (Hlook : forall g (i : nat) address,
            addresses !! i = Some address ->
            imap (fun i a => stored float (g (requests s + i)%nat a))
              addresses !! i
              = Some (stored float (g (requests s + i)%nat address))).
  { intros g i address Hi. rewrite list_lookup_imap, Hi. reflexivity. }
  split; [apply length_imap|]. split; [reflexivity|].
  split; [exists events; auto|]. split; [apply Hlook|].
  split; [|split; [|split]].
  - intros i address Hi Hfail. rewrite (Hlook geo i address Hi).
    unfold stored. rewrite (coordinates_of_failure float _ Hfail).
    reflexivity.
  - intros geo' i Hagree j Hj.
    destruct (Hrun geo') as (events' & -> & _). cbn [fst].
    rewrite !list_lookup_imap.
    destruct (addresses !! j) as [a|]; [|reflexivity].
    cbn. rewrite Hagree by exact Hj. reflexivity.
  - intros i address doc rest x y lng lat Hi Hgeo Hx Hfx Hy Hfy.
    rewrite (Hlook geo i address Hi). unfold stored. rewrite Hgeo.
    rewrite (coordinates_of_good float doc rest x y lng lat) by assumption.
    reflexivity.
  - intros i address Hi. rewrite (Hlook geo i address Hi). unfold stored.
    destruct (coordinates_of_cases float (geo (requests s + i)%nat address))
      as [->|(doc & rest & x & y & lng & lat & Hgeo & Hx & Hfx & Hy & Hfy
              & ->)].
    + left. reflexivity.
    + right. exists doc, rest, x, y, lng, lat. cbn [fst snd]. auto 10.
Qed.

(** ** Witnesses and runs on small inputs *)

Lemma collector_visits_every_window_witness :
  0 <= 250
  /\ collect_data_sequential net_rows 250 None None true s0
     = foldl (visit net_rows 250 None None true) ([], s0) (page_ranges 250).
Proof.
  split; [lia|].
  apply (collector_visits_every_window net_rows 250 None None true s0).
  lia.
Defined.

Lemma failed_window_is_skipped_witness :
  exists events : list event,
    collect_data_sequential net_rows_then_500 200 None None true s0
      = ([row_gu11; row_gu22], State 4 events)
    /\ warnings events
       = [warning 101 200 200 [row_gu11; row_gu22] "HTTP 오류: 500"].
Proof.
  apply (proj2 failed_window_is_skipped net_rows_then_500 None None true s0
           [row_gu11; row_gu22]).
  - reflexivity.
  - intros i Hi. reflexivity.
Defined.


(** Scenario A: total_count = 250 and every page succeeds. *)
Example scenario_all_pages :
  page_ranges 250 = [(1, 100); (101, 200); (201, 250)]
  /\ fst (collect_data_sequential net_rows 250 None None true s0)
     = [row_gu11; row_gu22; row_gu11; row_gu22; row_gu11; row_gu22]
  /\ log (snd (collect_data_sequential net_rows 250 None None false s0))
     = [Get 1 100; Sleep (1 # 5)%Q; Get 101 200; Sleep (1 # 5)%Q;
        Get 201 250; Sleep (1 # 5)%Q].
Proof. repeat split; reflexivity. Qed.

(** Scenario B: total_count = 200 and the window 101-200 fails. *)
Example scenario_failed_window :
  log (snd (collect_data_sequential net_rows_then_500 200 None None true s0))
    = [announce 1 100 200 []; Get 1 100; Sleep (1 # 5)%Q;
       announce 101 200 200 [row_gu11; row_gu22];
       Get 101 200; Sleep (inject_Z (2 ^ 0));
       Get 101 200; Sleep (inject_Z (2 ^ 1));
       Get 101 200;
       warning 101 200 200 [row_gu11; row_gu22] "HTTP 오류: 500";
       Sleep 1%Q].
Proof. reflexivity. Qed.

(** Scenario C: a total count of zero ends the run after the probe. *)
Example scenario_zero_count :
  get_all_rent_data net_zero_count None None true s0
    = ((None, Some "조회된 데이터가 없습니다."),
       State 1 [Progress 0 0 0 0 (Some "전체 데이터 개수 조회 중...") None;
                Get 1 1000]).
Proof. reflexivity. Qed.

(** The filter compares strings: the number 11 is not the string "11". *)
Example filter_no_coercion :
  client_side_filter (Some (CInt 11)) None [row_gu_number; row_gu11]
    = [row_gu11]
  /\ client_side_filter (Some (CInt 0)) (Some (CStr "")) [row_gu_number]
     = [row_gu_number].
Proof. split; reflexivity. Qed.

(** Scenario D: three records, the geocoding of the second one fails. *)
Example scenario_second_geocoding_fails :
  fst (main_coordinates float_of_string geo_second_fails ["a"; "b"; "c"] s0)
    = [(Some "37.5", Some "127.0"); (None, None);
       (Some "37.5", Some "127.0")].
Proof. reflexivity. Qed.

Example format_thousands_ex :
  format_thousands 1234567 = "1,234,567" /\ format_thousands 250 = "250"
  /\ format_thousands (-1000) = "-1,000" /\ format_thousands 0 = "0".
Proof. repeat split; reflexivity. Qed.

(** ** fetch_data_async with any number of retries *)

(** The loop over the last [m] retry indices, all of them failing. *)
Lemma retry_loop_all_fail net a b gu dong mr (m : nat) :
  forall i s,
    i + Z.of_nat (S m) = mr ->
    (forall j, (j < S m)%nat ->
       retryable (net (requests s + j)%nat a b) = true) ->
    retry_loop net a b gu dong mr (seqZ i (Z.of_nat (S m))) s
      = (Some (None, Some (cause a b (net (requests s + m)%nat a b))),
         State (requests s + S m) (log s ++ attempts_log a b i (S m))).
Proof.
  induction m as [|m IH]; intros i s Hi Hfail.
  - rewrite seqZ_cons by lia. rewrite seqZ_nil by lia.
    rewrite retry_loop_cons, attempt_run. cbn zeta.
    pose proof (Hfail 0%nat ltac:(lia)) as H0. rewrite Nat.add_0_r in *.
    rewrite H0, backoff_last by lia.
    unfold after_get. rewrite Nat.add_1_r. reflexivity.
  - rewrite seqZ_cons by lia.
    rewrite retry_loop_cons, attempt_run. cbn zeta.
    pose proof (Hfail 0%nat ltac:(lia)) as H0. rewrite Nat.add_0_r in H0.
    rewrite H0, backoff_again by lia.
    unfold after_get. cbn [requests log].
    replace (Z.pred (Z.of_nat (S (S m)))) with (Z.of_nat (S m)) by lia.
    replace (Z.succ i) with (i + 1) by lia.
    rewrite IH.
    + cbn [requests log].
      replace (S (requests s) + m)%nat with (requests s + S m)%nat by lia.
      replace (S (requests s) + S m)%nat with (requests s + S (S m))%nat
        by lia.
      rewrite <- !app_assoc. reflexivity.
    + lia.
    + intros j Hj. cbn [requests].
      replace (S (requests s) + j)%nat with (requests s + S j)%nat by lia.
      apply Hfail. lia.
Qed.

(** X1.  For every [max_retries] of at least 1: when all [max_retries]
    attempts meet a retryable failure, the fetch issues exactly that many
    requests for the window, sleeps 2^i seconds after attempt [i] for every
    attempt but the last, and returns the cause of the last failure. *)
Theorem fetch_exhausts_retries (net : network) (start_idx end_idx : Z)
    (gu_code dong_code : option code) (max_retries : Z) (s : state) :
  1 <= max_retries ->
  (forall j, (j < Z.to_nat max_retries)%nat ->
     retryable (net (requests s + j)%nat start_idx end_idx) = true) ->
  fetch_data_async net start_idx end_idx gu_code dong_code max_retries s
    = ((None,
        Some (cause start_idx end_idx
                (net (requests s + Z.to_nat (max_retries - 1))%nat
                   start_idx end_idx))),
       State (requests s + Z.to_nat max_retries)
         (log s ++ attempts_log start_idx end_idx 0 (Z.to_nat max_retries))).
Proof.
  intros Hmr Hfail.
  unfold fetch_data_async, bind.
  destruct (Z.to_nat max_retries) as [|m] eqn:Em; [lia|].
  replace max_retries with (Z.of_nat (S m)) at 2 by lia.
  rewrite (retry_loop_all_fail net start_idx end_idx gu_code dong_code
             max_retries m 0 s) by (lia || exact Hfail).
  replace (Z.to_nat (max_retries - 1)) with m by lia.
  reflexivity.
Qed.

Lemma fetch_exhausts_retries_witness :
  fetch_data_async net_500 1 100 None None 5 s0
    = ((None, Some "HTTP 오류: 500"),
       State 5 [Get 1 100; Sleep (inject_Z (2 ^ 0));
                Get 1 100; Sleep (inject_Z (2 ^ 1));
                Get 1 100; Sleep (inject_Z (2 ^ 2));
                Get 1 100; Sleep (inject_Z (2 ^ 3));
                Get 1 100]).
Proof.
  apply (fetch_exhausts_retries net_500 1 100 None None 5 s0).
  - lia.
  - intros j Hj. reflexivity.
Defined.

(** X2.  With [max_retries] of zero or less the loop body never runs: no
    request is issued, the state is unchanged, and the value after the loop,
    the error for an exceeded number of retries, is returned. *)
Theorem fetch_without_attempts (net : network) (start_idx end_idx : Z)
    (gu_code dong_code : option code) (max_retries : Z) (s : state) :
  max_retries <= 0 ->
  fetch_data_async net start_idx end_idx gu_code dong_code max_retries s
    = ((None, Some "최대 재시도 횟수 초과"), s).
Proof.
  intros Hmr. unfold fetch_data_async, bind.
  rewrite seqZ_nil by exact Hmr. reflexivity.
Qed.

Lemma fetch_without_attempts_witness :
  fetch_data_async net_rows 1 100 None None 0 s0
    = ((None, Some "최대 재시도 횟수 초과"), s0).
Proof. apply fetch_without_attempts. lia. Defined.

Lemma slept_attempts_log a b (n : nat) :
  forall i, 0 <= i ->
    (slept (attempts_log a b i (S n))
     == inject_Z (2 ^ i * (2 ^ Z.of_nat n - 1)))%Q.
Proof.
  induction n as [|n IH]; intros i Hi.
  - cbn [attempts_log slept]. change (2 ^ Z.of_nat 0) with 1.
    replace (2 ^ i * (1 - 1)) with 0 by lia. reflexivity.
  - change (attempts_log a b i (S (S n)))
      with (Get a b :: Sleep (inject_Z (2 ^ i))
              :: attempts_log a b (i + 1) (S n)).
    cbn [slept]. rewrite IH by lia. rewrite <- inject_Z_plus.
    apply inject_Z_injective.
    rewrite Nat2Z.inj_succ, !Z.pow_succ_r, Z.pow_add_r by lia.
    change (2 ^ 1) with 2. ring.
Qed.

(** X3.  When all [max_retries] attempts meet a retryable failure, the
    sleeps of the fetch add up to 2^(max_retries - 1) - 1 seconds: 3 seconds
    for the default of three attempts. *)
Theorem fetch_total_backoff (net : network) (start_idx end_idx : Z)
    (gu_code dong_code : option code) (max_retries : Z) (s : state) :
  1 <= max_retries ->
  (forall j, (j < Z.to_nat max_retries)%nat ->
     retryable (net (requests s + j)%nat start_idx end_idx) = true) ->
  exists events : list event,
    log (snd (fetch_data_async net start_idx end_idx gu_code dong_code
                max_retries s))
      = log s ++ events
    /\ (slept events == inject_Z (2 ^ (max_retries - 1) - 1))%Q.
Proof.
  intros Hmr Hfail.
  unfold fetch_data_async, bind.
  destruct (Z.to_nat max_retries) as [|m] eqn:Em; [lia|].
  assert (Hs : seqZ 0 max_retries = seqZ 0 (Z.of_nat (S m)))
    by (f_equal; lia).
  rewrite Hs.
  rewrite (retry_loop_all_fail net start_idx end_idx gu_code dong_code
             max_retries m 0 s) by (lia || exact Hfail).
  cbn [snd log].
  eexists. split; [reflexivity|].
  rewrite slept_attempts_log by lia.
  replace (Z.of_nat m) with (max_retries - 1) by lia.
  change (2 ^ 0) with 1. rewrite Z.mul_1_l. reflexivity.
Qed.

Lemma fetch_total_backoff_witness :
  exists events : list event,
    log (snd (fetch_data_async net_500 1 100 None None 3 s0)) = [] ++ events
    /\ (slept events == inject_Z (2 ^ (3 - 1) - 1))%Q.
Proof.
  apply (fetch_total_backoff net_500 1 100 None None 3 s0).
  - lia.
  - intros j Hj. reflexivity.
Defined.

Lemma settled_well_formed gu dong o : well_formed (settled gu dong o).
Proof.
  unfold settled, well_formed.
  destruct (rows_of o); [left; eauto|].
  destruct (no_data o); [left; eauto|].
  right. eexists. split; [reflexivity|discriminate].
Qed.

(** The loop over the last [m] retry indices, whatever the network answers:
    the requests it makes, and what it returns. *)
Lemma retry_loop_shape net a b gu dong mr (m : nat) :
  forall i s,
    i + Z.of_nat m = mr ->
    exists n : nat,
      (n <= m)%nat /\ (1 <= m -> 1 <= n)%nat
      /\ snd (retry_loop net a b gu dong mr (seqZ i (Z.of_nat m)) s)
           = State (requests s + n) (log s ++ attempts_log a b i n)
      /\ match fst (retry_loop net a b gu dong mr (seqZ i (Z.of_nat m)) s) with
         | None => m = 0%nat
         | Some r => well_formed r
         end.
Proof.
  induction m as [|m IH]; intros i s Hi.
  - exists 0%nat. rewrite seqZ_nil by lia. cbn.
    rewrite Nat.add_0_r, app_nil_r. destruct s; auto.
  - rewrite seqZ_cons by lia.
    rewrite retry_loop_cons, attempt_run. cbn zeta.
    replace (Z.pred (Z.of_nat (S m))) with (Z.of_nat m) by lia.
    destruct (retryable (net (requests s) a b)) eqn:Hr.
    + destruct m as [|m].
      * rewrite backoff_last by lia. exists 1%nat. cbn [fst snd].
        unfold after_get. rewrite Nat.add_1_r.
        repeat split; try lia.
        right. eexists. split; [reflexivity|]. now apply cause_nonempty.
      * rewrite backoff_again by lia. unfold after_get. cbn [requests log].
        replace (Z.succ i) with (i + 1) by lia.
        destruct (IH (i + 1)
                    (State (S (requests s))
                       ((log s ++ [Get a b])
                          ++ [Sleep (inject_Z (2 ^ i))])) ltac:(lia))
          as (n & Hn & Hn1 & Hsnd & Hfst).
        cbn [requests log] in Hsnd.
        destruct n as [|n]; [lia|].
        exists (S (S n)). rewrite Hsnd.
        split; [lia|]. split; [lia|]. split.
        -- f_equal; [lia|]. rewrite <- !app_assoc. reflexivity.
        -- destruct (fst (retry_loop _ _ _ _ _ _ _ _)); [exact Hfst|lia].
    + exists 1%nat. cbn [fst snd]. unfold after_get. rewrite Nat.add_1_r.
      repeat split; try lia. apply settled_well_formed.
Qed.

(** X4.  For every [max_retries] and every network, an error returned by a
    fetch is never the empty string and never comes together with rows; so
    the caller's test [if error] is true for every error that a fetch
    returns. *)
Theorem fetch_error_is_truthy (net : network) (start_idx end_idx : Z)
    (gu_code dong_code : option code) (max_retries : Z) (s : state)
    (e : string) :
  snd (fst (fetch_data_async net start_idx end_idx gu_code dong_code
              max_retries s))
    = Some e ->
  e <> ""
  /\ fst (fst (fetch_data_async net start_idx end_idx gu_code dong_code
                 max_retries s))
     = None
  /\ truthy_str
       (snd (fst (fetch_data_async net start_idx end_idx gu_code dong_code
                    max_retries s)))
     = true.
Proof.
  assert (Hwf : well_formed
            (fst (fetch_data_async net start_idx end_idx gu_code dong_code
                    max_retries s))).
  { destruct (Z_le_gt_dec max_retries 0) as [Hle|Hgt].
    - unfold fetch_data_async, bind. rewrite seqZ_nil by exact Hle.
      right. eexists. split; [reflexivity|discriminate].
    - unfold fetch_data_async, bind.
      destruct (retry_loop_shape net start_idx end_idx gu_code dong_code
                  max_retries (Z.to_nat max_retries) 0 s ltac:(lia))
        as (n & _ & _ & _ & Hfst).
      rewrite Z2Nat.id in Hfst by lia.
      destruct (retry_loop net start_idx end_idx gu_code dong_code
                  max_retries (seqZ 0 max_retries) s) as [[r|] s'];
        cbn [fst] in *; [exact Hfst|lia]. }
  destruct Hwf as [[rows ->]|[e' [-> He]]]; cbn [fst snd].
  - discriminate.
  - intros H. injection H as <-. split; [exact He|]. split; [reflexivity|].
    cbn. destruct e'; [contradiction|reflexivity].
Qed.

Lemma fetch_error_is_truthy_witness :
  "HTTP 오류: 500" <> ""
  /\ fst (fst (fetch_data_async net_500 1 100 None None 3 s0)) = None
  /\ truthy_str (snd (fst (fetch_data_async net_500 1 100 None None 3 s0)))
     = true.
Proof.
  apply (fetch_error_is_truthy net_500 1 100 None None 3 s0).
  reflexivity.
Defined.

(** X5.  For every [max_retries] and every network, all that a fetch does
    is: at most [max_retries] requests, each for its own window, with the
    backoff sleep of 2^i seconds between attempt [i] and the next one and
    nothing after the last request.  It makes no progress call, and with
    [max_retries] of at least 1 it makes at least one request. *)
Theorem fetch_effects (net : network) (start_idx end_idx : Z)
    (gu_code dong_code : option code) (max_retries : Z) (s : state) :
  exists n : nat,
    Z.of_nat n <= Z.max 0 max_retries
    /\ (1 <= max_retries -> (1 <= n)%nat)
    /\ snd (fetch_data_async net start_idx end_idx gu_code dong_code
              max_retries s)
       = State (requests s + n)
           (log s ++ attempts_log start_idx end_idx 0 n).
Proof.
  destruct (Z_le_gt_dec max_retries 0) as [Hle|Hgt].
  - exists 0%nat. unfold fetch_data_async, bind.
    rewrite seqZ_nil by exact Hle.
    cbn. rewrite Nat.add_0_r, app_nil_r. destruct s. repeat split; lia.
  - unfold fetch_data_async, bind.
    destruct (retry_loop_shape net start_idx end_idx gu_code dong_code
                max_retries (Z.to_nat max_retries) 0 s ltac:(lia))
      as (n & Hn & Hn1 & Hsnd & _).
    rewrite Z2Nat.id in Hsnd by lia.
    exists n.
    destruct (retry_loop net start_idx end_idx gu_code dong_code
                max_retries (seqZ 0 max_retries) s) as [[r|] s'];
      cbn [fst snd] in *; (split; [lia|split; [lia|exact Hsnd]]).
Qed.

Lemma retry_loop_settles net a b gu dong mr (k : nat) :
  forall (m : nat) i s,
    (k < m)%nat ->
    i + Z.of_nat m = mr ->
    (forall j, (j < k)%nat ->
       retryable (net (requests s + j)%nat a b) = true) ->
    retryable (net (requests s + k)%nat a b) = false ->
    retry_loop net a b gu dong mr (seqZ i (Z.of_nat m)) s
      = (Some (settled gu dong (net (requests s + k)%nat a b)),
         State (requests s + S k) (log s ++ attempts_log a b i (S k))).
Proof.
  induction k as [|k IH]; intros m i s Hk Hi Hfail Hlast.
  - destruct m as [|m]; [lia|].
    rewrite seqZ_cons by lia.
    rewrite retry_loop_cons, attempt_run. cbn zeta.
    rewrite Nat.add_0_r in Hlast. rewrite Hlast.
    unfold after_get. rewrite Nat.add_0_r, Nat.add_1_r. reflexivity.
  - destruct m as [|m]; [lia|].
    rewrite seqZ_cons by lia.
    rewrite retry_loop_cons, attempt_run. cbn zeta.
    pose proof (Hfail 0%nat ltac:(lia)) as H0. rewrite Nat.add_0_r in H0.
    rewrite H0, backoff_again by lia.
    unfold after_get. cbn [requests log].
    replace (Z.pred (Z.of_nat (S m))) with (Z.of_nat m) by lia.
    replace (Z.succ i) with (i + 1) by lia.
    rewrite (IH m (i + 1)).
    + cbn [requests log].
      replace (S (requests s) + k)%nat with (requests s + S k)%nat by lia.
      replace (S (requests s) + S k)%nat with (requests s + S (S k))%nat
        by lia.
      rewrite <- !app_assoc. reflexivity.
    + lia.
    + lia.
    + intros j Hj. cbn [requests].
      replace (S (requests s) + j)%nat with (requests s + S j)%nat by lia.
      apply Hfail. lia.
    + cbn [requests].
      replace (S (requests s) + k)%nat with (requests s + S k)%nat by lia.
      exact Hlast.
Qed.

(** X21.  For every [max_retries]: the first attempt that is not a
    retryable failure ends the fetch.  After [k] retryable failures,
    [k < max_retries], an answer with rows, with the no-data code or of
    unexpected shape is returned at once; the fetch has issued [k + 1]
    requests and slept 2^i seconds after each failed attempt [i]. *)
Theorem fetch_settles_after_failures (net : network) (start_idx end_idx : Z)
    (gu_code dong_code : option code) (max_retries : Z) (s : state)
    (k : nat) :
  Z.of_nat k < max_retries ->
  (forall j, (j < k)%nat ->
     retryable (net (requests s + j)%nat start_idx end_idx) = true) ->
  retryable (net (requests s + k)%nat start_idx end_idx) = false ->
  fetch_data_async net start_idx end_idx gu_code dong_code max_retries s
    = (settled gu_code dong_code
         (net (requests s + k)%nat start_idx end_idx),
       State (requests s + S k)
         (log s ++ attempts_log start_idx end_idx 0 (S k))).
Proof.
  intros Hk Hfail Hlast. unfold fetch_data_async, bind.
  replace max_retries with (Z.of_nat (Z.to_nat max_retries)) at 2 by lia.
  rewrite (retry_loop_settles net start_idx end_idx gu_code dong_code
             max_retries k (Z.to_nat max_retries) 0 s)
    by (assumption || lia).
  reflexivity.
Qed.

Lemma fetch_settles_after_failures_witness :
  fetch_data_async net_500_then_no_data 1 100 None None 5 s0
    = ((Some [], None),
       State 2 [Get 1 100; Sleep (inject_Z (2 ^ 0)); Get 1 100]).
Proof.
  apply (fetch_settles_after_failures net_500_then_no_data 1 100 None None 5
           s0 1).
  - lia.
  - intros j Hj. replace j with 0%nat by lia. reflexivity.
  - reflexivity.
Defined.

(** ** More on the client-side filter *)

Lemma Forall_filter_passes gu dong (rows : list record) :
  Forall (passes gu dong) (filter (passes gu dong) rows).
Proof.
  apply Forall_forall. intros r Hr. apply list_elem_of_filter in Hr. tauto.
Qed.

Lemma filter_passes_id gu dong (rows : list record) :
  Forall (passes gu dong) rows -> filter (passes gu dong) rows = rows.
Proof.
  induction 1 as [|r rest Hr _ IH]; [reflexivity|].
  rewrite filter_cons_True by exact Hr. rewrite IH. reflexivity.
Qed.

(** X6.  The client-side filter distributes over concatenation, so that
    filtering page by page and concatenating is filtering the concatenated
    pages; it is idempotent; it never lengthens the list; and every record
    of its output passes the filter. *)
Theorem client_side_filter_algebra (gu_code dong_code : option code)
    (rows1 rows2 : list record) :
  client_side_filter gu_code dong_code (rows1 ++ rows2)
    = client_side_filter gu_code dong_code rows1
        ++ client_side_filter gu_code dong_code rows2
  /\ client_side_filter gu_code dong_code
       (client_side_filter gu_code dong_code rows1)
     = client_side_filter gu_code dong_code rows1
  /\ (length (client_side_filter gu_code dong_code rows1) <= length rows1)%nat
  /\ Forall (passes gu_code dong_code)
       (client_side_filter gu_code dong_code rows1).
Proof.
  rewrite !client_side_filter_filter.
  split; [apply filter_app|]. split.
  - apply filter_passes_id, Forall_filter_passes.
  - split; [apply length_filter|apply Forall_filter_passes].
Qed.

(** ** More on the collector *)

(** The loop is the fold over the windows for every total count. *)
Lemma collect_fold net total gu dong cb s :
  collect_data_sequential net total gu dong cb s
    = foldl (visit net total gu dong cb) ([], s) (page_ranges total).
Proof.
  destruct (Z_le_gt_dec 0 total) as [H|H].
  - unfold collect_data_sequential, page_ranges.
    pose proof (pages_nonneg total H) as Hp.
    pose proof (collect_loop_pages net total gu dong cb
                  (Z.to_nat (pages total)) 0 [] s) as Hl.
    rewrite Z2Nat.id in Hl by lia.
    rewrite <- Hl by lia.
    f_equal. unfold batch_size. lia.
  - unfold collect_data_sequential, page_ranges.
    rewrite collect_loop_done by lia.
    rewrite seqZ_nil; [reflexivity|].
    unfold pages, batch_size. Z.to_euclidean_division_equations. lia.
Qed.

Lemma fetch_rows_pass net a b gu dong s rows :
  fst (fetch_data_async net a b gu dong 3 s) = (Some rows, None) ->
  Forall (passes gu dong) rows.
Proof.
  destruct (fetch_attempts net a b gu dong s) as (n & _ & _ & _ & -> & _).
  cbn zeta. destruct (retryable _); [discriminate|].
  unfold settled. destruct (rows_of _) as [l|].
  - intros H. injection H as <-. rewrite client_side_filter_filter.
    apply Forall_filter_passes.
  - destruct (no_data _); [|discriminate].
    intros H. injection H as <-. constructor.
Qed.

(** One pass of the loop appends rows that pass the filter, and costs one
    to three requests. *)
Lemma collect_window_grows net total gu dong cb cur end_idx acc s :
  exists (rows : list record) (n : nat),
    fst (collect_window net total gu dong cb cur end_idx acc s) = acc ++ rows
    /\ Forall (passes gu dong) rows
    /\ (1 <= n <= 3)%nat
    /\ requests (snd (collect_window net total gu dong cb cur end_idx acc s))
       = (requests s + n)%nat.
Proof.
  set (s1 := State (requests s)
               (log s ++ when_callback cb (announce cur end_idx total acc))).
  destruct (fetch_attempts net cur end_idx gu dong s1)
    as (n & Hn & _ & Hsnd & _ & _).
  destruct (fetch_result net cur end_idx gu dong s1) as [[rows H]|[e H]].
  - exists rows, n.
    rewrite (collect_window_rows net total gu dong cb cur end_idx acc s rows)
      by exact H.
    fold s1. rewrite Hsnd. cbn [fst snd requests s1].
    repeat split; try lia. eapply fetch_rows_pass; exact H.
  - exists [], n.
    rewrite (collect_window_error net total gu dong cb cur end_idx acc s
               None e) by exact H.
    fold s1. rewrite Hsnd. cbn [fst snd requests s1].
    rewrite app_nil_r. repeat split; try lia. constructor.
Qed.

Lemma foldl_visit_grows net total gu dong cb (ranges : list (Z * Z)) :
  forall acc s,
    exists (rows : list record) (n : nat),
      fst (foldl (visit net total gu dong cb) (acc, s) ranges) = acc ++ rows
      /\ Forall (passes gu dong) rows
      /\ (length ranges <= n <= 3 * length ranges)%nat
      /\ requests (snd (foldl (visit net total gu dong cb) (acc, s) ranges))
         = (requests s + n)%nat.
Proof.
  induction ranges as [|[a b] rest IH]; intros acc s.
  - exists [], 0%nat. cbn. rewrite app_nil_r, Nat.add_0_r.
    repeat split; try lia. constructor.
  - cbn [foldl]. unfold visit at 2 4. cbn [fst snd].
    destruct (collect_window_grows net total gu dong cb a b acc s)
      as (rows1 & n1 & Hfst1 & Hpass1 & Hn1 & Hreq1).
    destruct (collect_window net total gu dong cb a b acc s) as [acc' s'].
    cbn [fst snd] in *. subst acc'.
    destruct (IH (acc ++ rows1) s') as (rows2 & n2 & Hfst2 & Hpass2 & Hn2 & Hreq2).
    exists (rows1 ++ rows2), (n1 + n2)%nat.
    rewrite Hfst2, Hreq2, Hreq1, <- app_assoc. cbn [length].
    repeat split; try lia. apply Forall_app; auto.
Qed.

Lemma collected_rows_pass net total gu dong cb s :
  Forall (passes gu dong)
    (fst (collect_data_sequential net total gu dong cb s)).
Proof.
  rewrite collect_fold.
  destruct (foldl_visit_grows net total gu dong cb (page_ranges total) [] s)
    as (rows & n & -> & Hpass & _). exact Hpass.
Qed.

(** X7.  For every total count and every network, every record that
    [collect_data_sequential] returns passes the filter of the run. *)
Theorem collected_records_pass_filter (net : network) (total_count : Z)
    (gu_code dong_code : option code) (progress_callback : bool) (s : state) :
  Forall (passes gu_code dong_code)
    (fst (collect_data_sequential net total_count gu_code dong_code
            progress_callback s)).
Proof.
  rewrite collect_fold.
  destruct (foldl_visit_grows net total_count gu_code dong_code
              progress_callback (page_ranges total_count) [] s)
    as (rows & n & -> & Hpass & _). exact Hpass.
Qed.

(** X8.  With a total count of zero or less the loop body never runs: the
    collector returns the empty list and leaves the state as it was, without
    a request, a sleep or a progress call. *)
Theorem collect_nothing (net : network) (total_count : Z)
    (gu_code dong_code : option code) (progress_callback : bool) (s : state) :
  total_count <= 0 ->
  collect_data_sequential net total_count gu_code dong_code progress_callback s
    = ([], s).
Proof.
  intros H. unfold collect_data_sequential. apply collect_loop_done. lia.
Qed.

Lemma collect_nothing_witness :
  collect_data_sequential net_rows (-5) None None true s0 = ([], s0).
Proof. apply collect_nothing. lia. Defined.

(** X9.  For a total count of at least 0, a run of the collector issues at
    least one and at most three requests per window: between
    ceil(total_count / 100) and 3 * ceil(total_count / 100) in all. *)
Theorem collector_request_bounds (net : network) (total_count : Z)
    (gu_code dong_code : option code) (progress_callback : bool) (s : state) :
  0 <= total_count ->
  exists n : nat,
    requests (snd (collect_data_sequential net total_count gu_code dong_code
                     progress_callback s))
      = (requests s + n)%nat
    /\ pages total_count <= Z.of_nat n <= 3 * pages total_count.
Proof.
  intros H. rewrite collect_fold.
  destruct (foldl_visit_grows net total_count gu_code dong_code
              progress_callback (page_ranges total_count) [] s)
    as (rows & n & _ & _ & Hn & Hreq).
  exists n. split; [exact Hreq|].
  rewrite length_page_ranges in Hn.
  pose proof (pages_nonneg total_count H). lia.
Qed.

Lemma collector_request_bounds_witness :
  exists n : nat,
    requests (snd (collect_data_sequential net_rows_then_500 200 None None
                     true s0))
      = (0 + n)%nat
    /\ pages 200 <= Z.of_nat n <= 3 * pages 200.
Proof.
  apply (collector_request_bounds net_rows_then_500 200 None None true s0).
  lia.
Defined.

(** ** The progress callback does not steer the run *)

Lemma io_events_app l1 l2 :
  io_events (l1 ++ l2) = io_events l1 ++ io_events l2.
Proof.
  induction l1 as [|e l1 IH]; [reflexivity|].
  destruct e; cbn; rewrite IH; reflexivity.
Qed.

Lemma io_events_when_callback cb e :
  (exists a b t c st er, e = Progress a b t c st er) ->
  io_events (when_callback cb e) = [].
Proof. intros (a & b & t & c & st & er & ->). destruct cb; reflexivity. Qed.

Lemma fetch_same_io net a b gu dong s s' :
  same_io s s' ->
  fst (fetch_data_async net a b gu dong 3 s)
    = fst (fetch_data_async net a b gu dong 3 s')
  /\ same_io (snd (fetch_data_async net a b gu dong 3 s))
       (snd (fetch_data_async net a b gu dong 3 s')).
Proof.
  intros [Hreq Hlog]. rewrite !fetch_unrolled. cbn zeta. rewrite <- Hreq.
  destruct (retryable (net (requests s) a b));
    [destruct (retryable (net (S (requests s)) a b))|];
    (split; [reflexivity|]); unfold same_io; cbn [snd requests log];
    rewrite !io_events_app, Hlog; auto.
Qed.

Lemma collect_window_same_io net total gu dong cb cb' cur end_idx acc s s' :
  same_io s s' ->
  fst (collect_window net total gu dong cb cur end_idx acc s)
    = fst (collect_window net total gu dong cb' cur end_idx acc s')
  /\ same_io (snd (collect_window net total gu dong cb cur end_idx acc s))
       (snd (collect_window net total gu dong cb' cur end_idx acc s')).
Proof.
  intros [Hreq Hlog].
  set (s1 := State (requests s)
               (log s ++ when_callback cb (announce cur end_idx total acc))).
  set (s1' := State (requests s')
                (log s' ++ when_callback cb'
                             (announce cur end_idx total acc))).
  assert (H1 : same_io s1 s1').
  { split; [exact Hreq|]. cbn [log s1 s1'].
    rewrite !io_events_app, Hlog.
    rewrite !io_events_when_callback by (unfold announce; eauto 10).
    reflexivity. }
  destruct (fetch_same_io net cur end_idx gu dong s1 s1' H1)
    as [Hfst [Hreq2 Hlog2]].
  destruct (fetch_result net cur end_idx gu dong s1) as [[rows H]|[e H]].
  - rewrite (collect_window_rows net total gu dong cb cur end_idx acc s rows)
      by exact H.
    rewrite (collect_window_rows net total gu dong cb' cur end_idx acc s' rows)
      by (fold s1'; rewrite <- Hfst; exact H).
    fold s1 s1'. cbn zeta. cbn [fst snd].
    split; [reflexivity|]. split; [exact Hreq2|].
    cbn [log]. rewrite !io_events_app, Hlog2. reflexivity.
  - rewrite (collect_window_error net total gu dong cb cur end_idx acc s
               None e) by exact H.
    rewrite (collect_window_error net total gu dong cb' cur end_idx acc s'
               None e) by (fold s1'; rewrite <- Hfst; exact H).
    fold s1 s1'. cbn zeta. cbn [fst snd].
    split; [reflexivity|]. split; [exact Hreq2|].
    cbn [log]. rewrite !io_events_app, Hlog2.
    rewrite !io_events_when_callback by (unfold warning; eauto 10).
    reflexivity.
Qed.

Lemma foldl_visit_same_io net total gu dong cb cb' (ranges : list (Z * Z)) :
  forall acc s s',
    same_io s s' ->
    fst (foldl (visit net total gu dong cb) (acc, s) ranges)
      = fst (foldl (visit net total gu dong cb') (acc, s') ranges)
    /\ same_io (snd (foldl (visit net total gu dong cb) (acc, s) ranges))
         (snd (foldl (visit net total gu dong cb') (acc, s') ranges)).
Proof.
  induction ranges as [|[a b] rest IH]; intros acc s s' H.
  - cbn. auto.
  - cbn [foldl]. unfold visit at 2 4 6 8. cbn [fst snd].
    destruct (collect_window_same_io net total gu dong cb cb' a b acc s s' H)
      as [Hfst Hsame].
    destruct (collect_window net total gu dong cb a b acc s) as [acc1 s1].
    destruct (collect_window net total gu dong cb' a b acc s') as [acc2 s2].
    cbn [fst snd] in *. subst acc2. apply IH. exact Hsame.
Qed.

(** X10.  The progress callback is informational only: with and without a
    callback the collector returns the same records, issues the same number
    of requests, and logs the same requests and sleeps in the same order. *)
Theorem collector_ignores_callback (net : network) (total_count : Z)
    (gu_code dong_code : option code) (s : state) :
  let with_cb :=
    collect_data_sequential net total_count gu_code dong_code true s in
  let without_cb :=
    collect_data_sequential net total_count gu_code dong_code false s in
  fst with_cb = fst without_cb
  /\ requests (snd with_cb) = requests (snd without_cb)
  /\ io_events (log (snd with_cb)) = io_events (log (snd without_cb)).
Proof.
  cbn zeta. rewrite !collect_fold.
  destruct (foldl_visit_same_io net total_count gu_code dong_code true false
              (page_ranges total_count) [] s s (conj eq_refl eq_refl))
    as [Hfst [Hreq Hlog]].
  auto.
Qed.

(** ** A run without failures *)

Lemma rows_of_not_retryable o rows :
  rows_of o = Some rows -> retryable o = false.
Proof.
  unfold rows_of, retryable.
  destruct o as [| msg | status body]; try discriminate.
  destruct (status =? 200); [|discriminate].
  destruct (tbLnOpendataRentV body) as [[c [l|] r]|]; cbn; try discriminate.
  reflexivity.
Qed.

Lemma foldl_visit_all_rows net total gu dong cb (ranges : list (Z * Z)) :
  forall acc s,
    (forall (k : nat) (w : Z * Z),
        ranges !! k = Some w ->
        rows_of (net (requests s + k)%nat (fst w) (snd w)) <> None) ->
    fst (foldl (visit net total gu dong cb) (acc, s) ranges)
      = acc ++ concat (imap (fun k w =>
                               page_rows net gu dong (requests s + k)%nat w)
                         ranges)
    /\ requests (snd (foldl (visit net total gu dong cb) (acc, s) ranges))
       = (requests s + length ranges)%nat.
Proof.
  induction ranges as [|[a b] rest IH]; intros acc s Hrows.
  - cbn. rewrite app_nil_r, Nat.add_0_r. auto.
  - cbn [foldl]. unfold visit at 2 4. cbn [fst snd].
    destruct (rows_of (net (requests s + 0)%nat a b)) as [rows|] eqn:Er;
      [|exfalso; exact (Hrows 0%nat (a, b) eq_refl Er)].
    set (s1 := State (requests s)
                 (log s ++ when_callback cb (announce a b total acc))).
    pose proof (fetch_settles net a b gu dong s1 0 ltac:(lia)
                  ltac:(intros; lia)
                  (rows_of_not_retryable _ _ Er)) as Hf.
    cbn [requests s1] in Hf. unfold settled in Hf. rewrite Er in Hf.
    rewrite (collect_window_rows net total gu dong cb a b acc s
               (client_side_filter gu dong rows))
      by (fold s1; rewrite Hf; reflexivity).
    fold s1. rewrite Hf. cbn zeta. cbn [fst snd requests log].
    match goal with
    | |- context [foldl _ (_, ?st) rest] => set (s2 := st)
    end.
    destruct (IH (acc ++ client_side_filter gu dong rows) s2) as [Hfst Hreq].
    { intros k w Hk. cbn [requests s2].
      replace (S (requests s + 0) + k)%nat with (requests s + S k)%nat by lia.
      apply (Hrows (S k) w). exact Hk. }
    rewrite Hfst, Hreq. cbn [requests s2 length imap concat].
    split; [|lia].
    rewrite <- app_assoc. f_equal. f_equal.
    + unfold page_rows. cbn [fst snd]. rewrite Er. reflexivity.
    + f_equal. apply imap_ext. intros k w _. cbn. f_equal. lia.
Qed.

(** X11.  When the first attempt at every window is answered with a row
    list, the collector issues exactly one request per window and returns
    the filtered rows of the windows concatenated in the order of the
    windows. *)
Theorem collect_all_pages (net : network) (total_count : Z)
    (gu_code dong_code : option code) (progress_callback : bool) (s : state) :
  (forall (k : nat) (w : Z * Z),
      page_ranges total_count !! k = Some w ->
      rows_of (net (requests s + k)%nat (fst w) (snd w)) <> None) ->
  fst (collect_data_sequential net total_count gu_code dong_code
         progress_callback s)
    = concat (imap (fun k w =>
                      page_rows net gu_code dong_code (requests s + k)%nat w)
                (page_ranges total_count))
  /\ requests (snd (collect_data_sequential net total_count gu_code dong_code
                      progress_callback s))
     = (requests s + length (page_ranges total_count))%nat.
Proof.
  intros Hrows. rewrite collect_fold.
  apply (foldl_visit_all_rows net total_count gu_code dong_code
           progress_callback (page_ranges total_count) [] s Hrows).
Qed.

Lemma collect_all_pages_witness :
  fst (collect_data_sequential net_rows 250 (Some (CInt 11)) None true s0)
    = concat (imap (fun k w =>
                      page_rows net_rows (Some (CInt 11)) None (0 + k)%nat w)
                (page_ranges 250))
  /\ requests (snd (collect_data_sequential net_rows 250 (Some (CInt 11))
                      None true s0))
     = (0 + length (page_ranges 250))%nat.
Proof.
  apply (collect_all_pages net_rows 250 (Some (CInt 11)) None true s0).
  intros k w _. discriminate.
Defined.

(** ** Pacing, and the run in which everything fails *)

Lemma slept_app l1 l2 : (slept (l1 ++ l2) == slept l1 + slept l2)%Q.
Proof.
  induction l1 as [|e l1 IH]; [cbn; lra|].
  destruct e; cbn [app slept]; rewrite ?IH; lra.
Qed.

Lemma slept_when_callback cb a b t c st er :
  slept (when_callback cb (Progress a b t c st er)) = 0%Q.
Proof. destruct cb; reflexivity. Qed.

Lemma slept_attempts_bound a b (n : nat) :
  (1 <= n <= 3)%nat -> (0 <= slept (attempts_log a b 0 n) <= 3)%Q.
Proof.
  intros Hn. destruct n as [|[|[|[|n]]]]; try lia;
    split; vm_compute; discriminate.
Qed.

(** One pass of the loop sleeps between a fifth of a second and four
    seconds. *)
Lemma collect_window_slept net total gu dong cb cur end_idx acc s :
  exists events,
    log (snd (collect_window net total gu dong cb cur end_idx acc s))
      = log s ++ events
    /\ ((1 # 5) <= slept events <= 4)%Q.
Proof.
  set (s1 := State (requests s)
               (log s ++ when_callback cb (announce cur end_idx total acc))).
  destruct (fetch_attempts net cur end_idx gu dong s1)
    as (n & Hn & _ & Hsnd & Hfst & Hlast).
  pose proof (slept_attempts_bound cur end_idx n Hn) as Hb.
  destruct (fetch_result net cur end_idx gu dong s1) as [[rows H]|[e H]].
  - rewrite (collect_window_rows net total gu dong cb cur end_idx acc s rows)
      by exact H.
    fold s1. rewrite Hsnd. cbn [snd log s1].
    eexists. rewrite <- !app_assoc. split; [reflexivity|].
    rewrite !slept_app. unfold announce. rewrite slept_when_callback.
    cbn [slept].
    lra.
  - rewrite (collect_window_error net total gu dong cb cur end_idx acc s
               None e) by exact H.
    fold s1. rewrite Hsnd. cbn [snd log s1].
    eexists. rewrite <- !app_assoc. split; [reflexivity|].
    rewrite !slept_app. unfold announce, warning.
    rewrite !slept_when_callback. cbn [slept]. lra.
Qed.

Lemma foldl_visit_slept net total gu dong cb (ranges : list (Z * Z)) :
  forall acc s,
    exists events,
      log (snd (foldl (visit net total gu dong cb) (acc, s) ranges))
        = log s ++ events
      /\ ((1 # 5) * inject_Z (Z.of_nat (length ranges)) <= slept events
          <= 4 * inject_Z (Z.of_nat (length ranges)))%Q.
Proof.
  induction ranges as [|[a b] rest IH]; intros acc s.
  - exists []. rewrite app_nil_r. split; [reflexivity|].
    cbn [length slept]. change (inject_Z (Z.of_nat 0)) with 0%Q. lra.
  - cbn [foldl]. unfold visit at 2. cbn [fst snd].
    destruct (collect_window_slept net total gu dong cb a b acc s)
      as (ev1 & Hlog1 & Hs1).
    destruct (collect_window net total gu dong cb a b acc s) as [acc' s'].
    cbn [snd] in Hlog1.
    destruct (IH acc' s') as (ev2 & Hlog2 & Hs2).
    exists (ev1 ++ ev2). rewrite Hlog2, Hlog1, <- app_assoc.
    split; [reflexivity|].
    rewrite slept_app. cbn [length].
    rewrite Nat2Z.inj_succ. unfold Z.succ. rewrite inject_Z_plus.
    change (inject_Z 1) with 1%Q. lra.
Qed.

(** X22.  The collector paces its requests: for a total count of at least 0
    it sleeps, over the whole run, at least a fifth of a second and at most
    four seconds per window, whatever the network answers. *)
Theorem collector_pacing (net : network) (total_count : Z)
    (gu_code dong_code : option code) (progress_callback : bool) (s : state) :
  0 <= total_count ->
  exists events : list event,
    log (snd (collect_data_sequential net total_count gu_code dong_code
                progress_callback s))
      = log s ++ events
    /\ ((1 # 5) * inject_Z (pages total_count) <= slept events
        <= 4 * inject_Z (pages total_count))%Q.
Proof.
  intros H. rewrite collect_fold.
  destruct (foldl_visit_slept net total_count gu_code dong_code
              progress_callback (page_ranges total_count) [] s)
    as (events & Hlog & Hs).
  exists events. split; [exact Hlog|].
  rewrite length_page_ranges, Z2Nat.id in Hs
    by (apply pages_nonneg; exact H).
  exact Hs.
Qed.

Lemma collector_pacing_witness :
  exists events : list event,
    log (snd (collect_data_sequential net_rows_then_500 200 None None true
                s0))
      = [] ++ events
    /\ ((1 # 5) * inject_Z (pages 200) <= slept events
        <= 4 * inject_Z (pages 200))%Q.
Proof.
  apply (collector_pacing net_rows_then_500 200 None None true s0). lia.
Defined.

Lemma foldl_visit_all_fail net total gu dong cb (ranges : list (Z * Z)) :
  (forall n a b, retryable (net n a b) = true) ->
  forall acc s,
    fst (foldl (visit net total gu dong cb) (acc, s) ranges) = acc
    /\ requests (snd (foldl (visit net total gu dong cb) (acc, s) ranges))
       = (requests s + 3 * length ranges)%nat.
Proof.
  intros Hfail.
  induction ranges as [|[a b] rest IH]; intros acc s.
  - cbn. split; [reflexivity|lia].
  - cbn [foldl]. unfold visit at 2 4. cbn [fst snd].
    set (s1 := State (requests s)
                 (log s ++ when_callback cb (announce a b total acc))).
    pose proof (fetch_exhausts net a b gu dong s1
                  ltac:(intros; apply Hfail)) as Hf.
    rewrite (collect_window_error net total gu dong cb a b acc s None
               (cause a b (net (requests s1 + 2)%nat a b)))
      by (fold s1; rewrite Hf; reflexivity).
    fold s1. rewrite Hf. cbn zeta. cbn [snd requests s1].
    match goal with
    | |- context [foldl _ (_, ?st) rest] => destruct (IH acc st) as [-> ->]
    end.
    cbn [requests length]. split; [reflexivity|lia].
Qed.

(** X23.  When every request meets a retryable failure, the collector still
    visits every window, issues exactly three requests for each of them, and
    returns the empty list. *)
Theorem collect_all_fail (net : network) (total_count : Z)
    (gu_code dong_code : option code) (progress_callback : bool) (s : state) :
  (forall n a b, retryable (net n a b) = true) ->
  fst (collect_data_sequential net total_count gu_code dong_code
         progress_callback s) = []
  /\ requests (snd (collect_data_sequential net total_count gu_code dong_code
                      progress_callback s))
     = (requests s + 3 * length (page_ranges total_count))%nat.
Proof.
  intros Hfail. rewrite collect_fold.
  apply foldl_visit_all_fail. exact Hfail.
Qed.

Lemma collect_all_fail_witness :
  fst (collect_data_sequential net_500 250 None None true s0) = []
  /\ requests (snd (collect_data_sequential net_500 250 None None true s0))
     = (0 + 3 * length (page_ranges 250))%nat.
Proof.
  apply (collect_all_fail net_500 250 None None true s0).
  intros n a b. reflexivity.
Defined.

(** ** More on get_total_count and get_all_rent_data *)

(** The probe looks at the answer to its one request and at nothing else of
    the state. *)
Lemma get_total_count_same_io net gu dong gu' dong' s s' :
  same_io s s' ->
  fst (get_total_count net gu dong s) = fst (get_total_count net gu' dong' s')
  /\ same_io (snd (get_total_count net gu dong s))
       (snd (get_total_count net gu' dong' s')).
Proof.
  intros [Hreq Hlog]. split.
  - unfold get_total_count, session_get, bind, ret. rewrite <- Hreq.
    destruct (net (requests s) 1 1000) as [| e | status body];
      try reflexivity.
    destruct (status =? 200); [|reflexivity].
    destruct (tbLnOpendataRentV body) as [[[c|] rows [r|]]|]; reflexivity.
  - rewrite !get_total_count_state. unfold same_io, after_get.
    cbn [requests log]. rewrite !io_events_app, Hlog, Hreq. auto.
Qed.

(** X12.  [get_total_count] returns a count only when the answer to its
    request has status 200 and the object under the data set's key has a
    list_total_count; the count is the integer of that field and no error
    comes with it.  Whenever it returns an error, the error is not the empty
    string and no count comes with it. *)
Theorem get_total_count_sound (net : network)
    (gu_code dong_code : option code) (s : state) :
  (forall total_count : Z,
      fst (fst (get_total_count net gu_code dong_code s)) = Some total_count ->
      snd (fst (get_total_count net gu_code dong_code s)) = None
      /\ exists body res,
           net (requests s) 1 1000 = Response 200 body
           /\ tbLnOpendataRentV body = Some res
           /\ list_total_count res = Some total_count)
  /\ (forall e : string,
        snd (fst (get_total_count net gu_code dong_code s)) = Some e ->
        e <> ""
        /\ fst (fst (get_total_count net gu_code dong_code s)) = None).
Proof.
  split.
  - intros n.
    unfold get_total_count, session_get, bind, ret. cbn [fst].
    destruct (net (requests s) 1 1000) as [| e | status body] eqn:En;
      cbn [fst snd]; try discriminate.
    destruct (status =? 200) eqn:Es; [|discriminate].
    apply Z.eqb_eq in Es. subst status.
    destruct (tbLnOpendataRentV body) as [[[c|] rows [r|]]|] eqn:Eb;
      cbn [fst snd list_total_count RESULT]; try discriminate.
    all: intros H; injection H as <-; split; [reflexivity|];
      exists body; eexists;
      (split; [reflexivity|split; [exact Eb|reflexivity]]).
  - intros e He.
    destruct (get_total_count_result net gu_code dong_code s)
      as [[n Hn]|[e' [He' Ht]]].
    + rewrite Hn in He. discriminate He.
    + rewrite He' in He |- *. cbn [fst snd] in *. injection He as <-.
      split; [|reflexivity].
      destruct e'; [discriminate Ht|discriminate].
Qed.

(** What [get_all_rent_data] does after its first progress call. *)
Lemma get_all_rent_data_run net gu dong cb s :
  get_all_rent_data net gu dong cb s
    = let r := get_total_count net gu dong
                 (State (requests s)
                    (log s ++ when_callback cb
                                (Progress 0 0 0 0
                                   (Some "전체 데이터 개수 조회 중...") None))) in
      if truthy_str (snd (fst r)) then ((None, snd (fst r)), snd r)
      else match fst (fst r) with
           | None => ((None, Some "조회된 데이터가 없습니다."), snd r)
           | Some total_count =>
               if total_count =? 0
               then ((None, Some "조회된 데이터가 없습니다."), snd r)
               else
                 let c := collect_data_sequential net total_count gu dong cb
                            (State (requests (snd r))
                               (log (snd r)
                                  ++ when_callback cb
                                       (Progress 0 0 total_count 0
                                          (Some ("총 "
                                             +:+ format_thousands total_count
                                             +:+ "건의 데이터 수집 시작..."))
                                          None))) in
                 match fst c with
                 | _ :: _ => ((Some (fst c), None), snd c)
                 | [] => ((None, Some "데이터 수집 실패"), snd c)
                 end
           end.
Proof.
  unfold get_all_rent_data, bind, ret.
  rewrite call_progress_run.
  destruct (get_total_count net gu dong _) as [[c e] s2].
  cbn [fst snd]. cbn zeta.
  destruct (truthy_str e); [reflexivity|].
  destruct c as [n|]; [|reflexivity].
  destruct (n =? 0); [reflexivity|].
  rewrite call_progress_run.
  destruct (collect_data_sequential net n gu dong cb _) as [[|r rest] s4];
    reflexivity.
Qed.

(** X13.  A negative total count is not caught by the test for a zero or
    absent count: the collector is called, its loop does not run, and the
    run ends with the error for a failed collection after the probe's one
    request. *)
Theorem negative_count_collects_nothing (net : network)
    (gu_code dong_code : option code) (progress_callback : bool) (s : state)
    (body : data) (res : envelope) (total_count : Z) :
  net (requests s) 1 1000 = Response 200 body ->
  tbLnOpendataRentV body = Some res ->
  list_total_count res = Some total_count ->
  total_count < 0 ->
  fst (get_all_rent_data net gu_code dong_code progress_callback s)
    = (None, Some "데이터 수집 실패")
  /\ requests (snd (get_all_rent_data net gu_code dong_code progress_callback
                      s))
     = S (requests s).
Proof.
  intros Hnet Hbody Hcount Hneg.
  rewrite get_all_rent_data_run. cbn zeta.
  set (s1 := State (requests s) _).
  assert (Hp : get_total_count net gu_code dong_code s1
               = ((Some total_count, None), after_get 1 1000 s1)).
  { rewrite (surjective_pairing (get_total_count _ _ _ _)).
    rewrite get_total_count_state. f_equal.
    unfold get_total_count, session_get, bind, ret. cbn [requests s1 fst].
    rewrite Hnet. cbn [fst]. rewrite Z.eqb_refl, Hbody, Hcount. reflexivity. }
  rewrite Hp. cbn [fst snd truthy_str].
  assert (Hz : (total_count =? 0) = false) by (apply Z.eqb_neq; lia).
  rewrite Hz.
  unfold collect_data_sequential. rewrite collect_loop_done by lia.
  cbn [fst snd requests after_get s1]. auto.
Qed.

Lemma negative_count_collects_nothing_witness :
  fst (get_all_rent_data net_negative_count None None true s0)
    = (None, Some "데이터 수집 실패")
  /\ requests (snd (get_all_rent_data net_negative_count None None true s0))
     = 1%nat.
Proof.
  apply (negative_count_collects_nothing net_negative_count None None true s0
           (Data (Some (Envelope (Some (-5)) None None)) "")
           (Envelope (Some (-5)) None None) (-5)).
  - reflexivity.
  - reflexivity.
  - reflexivity.
  - lia.
Defined.

(** X14.  The records that [get_all_rent_data] returns are never an empty
    list, and every one of them passes the filter of the run. *)
Theorem returned_records_pass_filter (net : network)
    (gu_code dong_code : option code) (progress_callback : bool) (s : state)
    (records : list record) :
  fst (fst (get_all_rent_data net gu_code dong_code progress_callback s))
    = Some records ->
  records <> [] /\ Forall (passes gu_code dong_code) records.
Proof.
  rewrite get_all_rent_data_run. cbn zeta.
  destruct (truthy_str _); [discriminate|].
  destruct (fst (fst (get_total_count _ _ _ _))) as [n|]; [|discriminate].
  destruct (n =? 0); [discriminate|].
  match goal with
  | |- context [collect_data_sequential ?a ?b ?c ?d ?e ?f] =>
      pose proof (collected_rows_pass a b c d e f) as Hpass;
      destruct (fst (collect_data_sequential a b c d e f)) as [|r rest]
  end; [discriminate|].
  cbn [fst]. intros H. injection H as <-. split; [discriminate|exact Hpass].
Qed.

Lemma returned_records_pass_filter_witness :
  [row_gu11; row_gu11; row_gu11] <> []
  /\ Forall (passes (Some (CInt 11)) None) [row_gu11; row_gu11; row_gu11].
Proof.
  apply (returned_records_pass_filter net_rows (Some (CInt 11)) None true s0).
  reflexivity.
Defined.

(** X15.  With and without a progress callback [get_all_rent_data] returns
    the same result, issues the same number of requests, and logs the same
    requests and sleeps in the same order. *)
Theorem facade_ignores_callback (net : network)
    (gu_code dong_code : option code) (s : state) :
  let with_cb := get_all_rent_data net gu_code dong_code true s in
  let without_cb := get_all_rent_data net gu_code dong_code false s in
  fst with_cb = fst without_cb
  /\ requests (snd with_cb) = requests (snd without_cb)
  /\ io_events (log (snd with_cb)) = io_events (log (snd without_cb)).
Proof.
  cbn zeta. rewrite !get_all_rent_data_run. cbn zeta.
  set (s1 := State (requests s) (log s ++ when_callback true _)).
  set (s1' := State (requests s) (log s ++ when_callback false _)).
  assert (H1 : same_io s1 s1').
  { split; [reflexivity|]. cbn [log s1 s1' when_callback].
    rewrite !io_events_app. reflexivity. }
  destruct (get_total_count_same_io net gu_code dong_code gu_code dong_code
              s1 s1' H1) as [Hfst Hsame].
  rewrite <- Hfst.
  destruct (truthy_str _); [cbn [fst snd]; destruct Hsame; auto|].
  destruct (fst (fst (get_total_count net gu_code dong_code s1))) as [n|];
    [|cbn [fst snd]; destruct Hsame; auto].
  destruct (n =? 0); [cbn [fst snd]; destruct Hsame; auto|].
  set (s2 := State (requests (snd (get_total_count _ _ _ s1))) _).
  set (s2' := State (requests (snd (get_total_count _ _ _ s1'))) _).
  assert (H2 : same_io s2 s2').
  { destruct Hsame as [Hr Hl]. split; [exact Hr|].
    cbn [log s2 s2' when_callback]. rewrite !io_events_app, Hl. reflexivity. }
  rewrite !collect_fold.
  destruct (foldl_visit_same_io net n gu_code dong_code true false
              (page_ranges n) [] s2 s2' H2) as [Hc [Hr Hl]].
  rewrite <- Hc.
  destruct (fst (foldl (visit net n gu_code dong_code true) ([], s2)
                   (page_ranges n))); cbn [fst snd]; auto.
Qed.

(** ** More on the geocoding loop *)

Lemma coordinates_of_both_or_neither {F} (float : value -> option F) o :
  coordinates_of float o = (None, None)
  \/ exists x y, coordinates_of float o = (Some x, Some y).
Proof.
  unfold coordinates_of.
  destruct o as [|status documents]; [auto|].
  destruct (status =? 200); [|auto].
  destruct documents as [[|doc rest]|]; [auto| |auto].
  destruct (doc !! "x") as [x|]; [|auto].
  destruct (float x) as [fx|]; [|auto].
  destruct (doc !! "y") as [y|]; [|auto].
  destruct (float y) as [fy|]; [|auto].
  right. eauto.
Qed.

(** X16.  For every record of the geocoding loop the latitude and the
    longitude are both present or both absent: no record ends up with half
    a coordinate. *)
Theorem coordinates_both_or_neither {F : Type} (float : value -> option F)
    (geo : geocoder) (addresses : list string) (s : state) :
  Forall (fun c : option F * option F =>
            (fst c = None /\ snd c = None)
            \/ (exists lat lng, c = (Some lat, Some lng)))
    (fst (main_coordinates float geo addresses s)).
Proof.
  unfold main_coordinates.
  destruct (geocode_loop_run float geo (Z.of_nat (length addresses))
              addresses 0 [] s) as (events & -> & _).
  cbn [fst app]. apply Forall_lookup. intros i c Hi.
  rewrite list_lookup_imap in Hi.
  destruct (addresses !! i) as [a|]; [|discriminate].
  cbn in Hi. injection Hi as <-. unfold stored.
  destruct (coordinates_of_both_or_neither float
              (geo (requests s + i)%nat a)) as [->|(x & y & ->)];
    cbn [fst snd]; eauto.
Qed.

Lemma updates_app l1 l2 : updates (l1 ++ l2) = updates l1 ++ updates l2.
Proof.
  induction l1 as [|e l1 IH]; [reflexivity|].
  destruct e; cbn; rewrite IH; reflexivity.
Qed.

(** The loop updates the widgets after exactly those records whose count is
    a multiple of 50. *)
Lemma geocode_loop_updates {F} (float : value -> option F) geo total
    (addresses : list string) :
  forall idx coordinates s,
    exists events,
      log (snd (geocode_loop float geo total idx addresses coordinates s))
        = log s ++ events
      /\ updates events
         = (fun m => Update m total)
             <$> filter (fun m => m mod 50 = 0)
                   (seqZ (idx + 1) (Z.of_nat (length addresses))).
Proof.
  induction addresses as [|address rest IH]; intros idx coordinates s.
  - exists []. cbn. rewrite app_nil_r. auto.
  - cbn [geocode_loop length]. unfold bind at 1. unfold get_coordinates.
    destruct (coordinates_of float (geo (requests s) address)) as [lng lat].
    unfold bind at 1.
    set (s1 := State (S (requests s)) (log s ++ [Geocode address])).
    rewrite seqZ_cons by lia.
    replace (Z.pred (Z.of_nat (S (length rest))))
      with (Z.of_nat (length rest)) by lia.
    replace (Z.succ (idx + 1)) with (idx + 1 + 1) by lia.
    destruct ((idx + 1) mod 50 =? 0) eqn:Em.
    + apply Z.eqb_eq in Em.
      rewrite filter_cons_True by exact Em. cbn [emit].
      destruct (IH (idx + 1) (coordinates ++ [(lat, lng)])
                  (State (requests s1)
                     (log s1 ++ [Update (idx + 1) total])))
        as (events & -> & Hev).
      exists ([Geocode address; Update (idx + 1) total] ++ events).
      cbn [log s1]. rewrite <- !app_assoc. split; [reflexivity|].
      rewrite updates_app, Hev. reflexivity.
    + apply Z.eqb_neq in Em.
      rewrite filter_cons_False by exact Em. unfold ret.
      destruct (IH (idx + 1) (coordinates ++ [(lat, lng)]) s1)
        as (events & -> & Hev).
      exists ([Geocode address] ++ events).
      cbn [log s1]. rewrite <- !app_assoc. split; [reflexivity|].
      rewrite updates_app, Hev. reflexivity.
Qed.

Lemma multiples_of_50 (n : nat) :
  filter (fun m => m mod 50 = 0) (seqZ 1 (Z.of_nat n))
    = (fun k => 50 * k) <$> seqZ 1 (Z.of_nat n / 50).
Proof.
  induction n as [|n IH]; [reflexivity|].
  rewrite seqZ_S, filter_app, IH.
  destruct (decide ((1 + Z.of_nat n) mod 50 = 0)) as [Hm|Hm].
  - rewrite filter_cons_True by exact Hm. rewrite filter_nil.
    replace (Z.of_nat (S n) / 50) with (Z.of_nat n / 50 + 1)
      by (Z.to_euclidean_division_equations; lia).
    rewrite seqZ_app by (Z.to_euclidean_division_equations; lia).
    rewrite fmap_app. f_equal.
    rewrite seqZ_cons, seqZ_nil by lia. cbn [fmap list_fmap].
    f_equal. Z.to_euclidean_division_equations. lia.
  - rewrite filter_cons_False by exact Hm. rewrite filter_nil, app_nil_r.
    f_equal. f_equal. Z.to_euclidean_division_equations. lia.
Qed.

(** X17.  The geocoding loop updates the progress widgets exactly after the
    records number 50, 100, ..., each time with the total number of
    records: floor(n / 50) updates for [n] records, none for fewer than 50,
    and none for the records after the last multiple of 50. *)
Theorem progress_every_50 {F : Type} (float : value -> option F)
    (geo : geocoder) (addresses : list string) (s : state) :
  let n := Z.of_nat (length addresses) in
  exists events : list event,
    log (snd (main_coordinates float geo addresses s)) = log s ++ events
    /\ updates events = (fun k => Update (50 * k) n) <$> seqZ 1 (n / 50).
Proof.
  cbn zeta. unfold main_coordinates.
  destruct (geocode_loop_updates float geo (Z.of_nat (length addresses))
              addresses 0 [] s) as (events & Hlog & Hup).
  exists events. split; [exact Hlog|].
  rewrite Hup. change (0 + 1) with 1. rewrite multiples_of_50.
  rewrite <- list_fmap_compose. reflexivity.
Qed.

(** ** create_address and build_api_params *)

Lemma string_app_assoc (a b c : string) : (a +:+ b) +:+ c = a +:+ b +:+ c.
Proof.
  induction a as [|x a IH]; [reflexivity|].
  change (String x ((a +:+ b) +:+ c) = String x (a +:+ b +:+ c)).
  rewrite IH. reflexivity.
Qed.

Lemma string_app_nil_r (a : string) : a +:+ "" = a.
Proof.
  induction a as [|x a IH]; [reflexivity|].
  change (String x (a +:+ "") = String x a). rewrite IH. reflexivity.
Qed.

Lemma extends_refl (base : string) : exists tail, base = base +:+ tail.
Proof. exists "". symmetry. apply string_app_nil_r. Qed.

Lemma extends_app (base x y : string) :
  (exists tail, x = base +:+ tail) -> exists tail, x +:+ y = base +:+ tail.
Proof.
  intros [t ->]. exists (t +:+ y). apply string_app_assoc.
Qed.

(** X18.  [create_address] raises exactly when the row lacks the column
    법정동명 or the column 지번구분명; a missing, empty or non-numeric lot
    number never makes it raise.  Every address it returns begins with
    "서울특별시", the district name and the sub-district name of the row. *)
Theorem create_address_defined (int : value -> option Z)
    (row : gmap string value) (gu_name : string) :
  (create_address int row gu_name = None
   <-> row !! "법정동명" = None \/ row !! "지번구분명" = None)
  /\ (forall address,
        create_address int row gu_name = Some address ->
        exists dong tail,
          row !! "법정동명" = Some dong
          /\ address
             = ("서울특별시 " +:+ gu_name +:+ " " +:+ str_value dong)
                 +:+ tail).
Proof.
  unfold create_address.
  destruct (row !! "법정동명") as [dong|]; [|split; [tauto|discriminate]].
  destruct (row !! "지번구분명") as [se|]; [|split; [tauto|discriminate]].
  split.
  - split; [discriminate|]. intros [H|H]; discriminate H.
  - intros address H. injection H as <-. exists dong.
    match goal with
    | |- exists tail, _ /\ ?x = ?b +:+ tail =>
        cut (exists tail, x = b +:+ tail);
        [intros [t Ht]; exists t; split; [reflexivity|exact Ht]|]
    end.
    assert (H : exists tail,
               "서울특별시 " +:+ gu_name +:+ " " +:+ str_value dong
               = ("서울특별시 " +:+ gu_name +:+ " " +:+ str_value dong)
                   +:+ tail) by apply extends_refl.
    cbn zeta.
    assert (H1 : exists tail,
               (if eq_str se "산"
                then ("서울특별시 " +:+ gu_name +:+ " " +:+ str_value dong)
                       +:+ " " +:+ str_value se
                else "서울특별시 " +:+ gu_name +:+ " " +:+ str_value dong)
               = ("서울특별시 " +:+ gu_name +:+ " " +:+ str_value dong)
                   +:+ tail).
    { destruct (eq_str se "산"); [apply extends_app|]; exact H. }
    revert H1. generalize (if eq_str se "산"
                then ("서울특별시 " +:+ gu_name +:+ " " +:+ str_value dong)
                       +:+ " " +:+ str_value se
                else "서울특별시 " +:+ gu_name +:+ " " +:+ str_value dong).
    intros a1 H1.
    assert (H2 : exists tail,
               match row !! "본번" with
               | Some mno =>
                   match int mno with
                   | Some n => a1 +:+ " " +:+ pretty n
                   | None => a1
                   end
               | None => a1
               end
               = ("서울특별시 " +:+ gu_name +:+ " " +:+ str_value dong)
                   +:+ tail).
    { destruct (row !! "본번") as [mno|]; [|exact H1].
      destruct (int mno); [apply extends_app|]; exact H1. }
    revert H2. generalize (match row !! "본번" with
               | Some mno =>
                   match int mno with
                   | Some n => a1 +:+ " " +:+ pretty n
                   | None => a1
                   end
               | None => a1
               end).
    intros a2 H2.
    destruct (row !! "부번") as [sno|]; [|exact H2].
    destruct (ne_zero sno); [|exact H2].
    destruct (int sno); [apply extends_app|]; exact H2.
Qed.

(** X19.  A sub-number of 0 adds nothing: the address of a row whose 부번 is
    the number 0 is the address of the same row without that column. *)
Theorem zero_sub_number_is_dropped (int : value -> option Z)
    (row : gmap string value) (gu_name : string) :
  row !! "부번" = Some (VInt 0) ->
  create_address int row gu_name
    = create_address int (delete "부번" row) gu_name.
Proof.
  intros H. unfold create_address.
  rewrite lookup_delete_eq.
  rewrite !lookup_delete_ne by discriminate.
  rewrite H. cbn [ne_zero Z.eqb negb]. reflexivity.
Qed.

Lemma zero_sub_number_is_dropped_witness :
  create_address int_of_integer (<["부번" := VInt 0]> row_address) "종로구"
    = create_address int_of_integer
        (delete "부번" (<["부번" := VInt 0]> row_address)) "종로구".
Proof.
  apply zero_sub_number_is_dropped. reflexivity.
Defined.

Example create_address_ex :
  create_address int_of_integer row_address "종로구"
    = Some "서울특별시 종로구 사직동 산 12-3"
  /\ create_address int_of_integer (delete "본번" row_address) "종로구"
     = Some "서울특별시 종로구 사직동 산-3"
  /\ create_address int_of_integer (delete "법정동명" row_address) "종로구"
     = None.
Proof. repeat split; reflexivity. Qed.

(** X20.  [build_api_params] is the empty string exactly when both
    arguments are absent.  A district code alone and a sub-district code
    alone give the same shape, a slash and the code, so that a sub-district
    code given alone stands where the district code would; both together
    give the two codes in the order district, sub-district. *)
Theorem build_api_params_shape (gu_code dong_code : option code) :
  (build_api_params gu_code dong_code = ""
   <-> truthy gu_code = false /\ truthy dong_code = false)
  /\ (truthy gu_code = true -> truthy dong_code = false ->
      build_api_params gu_code dong_code = "/" +:+ str gu_code)
  /\ (truthy gu_code = false -> truthy dong_code = true ->
      build_api_params gu_code dong_code = "/" +:+ str dong_code)
  /\ (truthy gu_code = true -> truthy dong_code = true ->
      build_api_params gu_code dong_code
        = "/" +:+ str gu_code +:+ "/" +:+ str dong_code).
Proof.
  unfold build_api_params.
  destruct (truthy gu_code), (truthy dong_code); cbn.
  all: repeat split; try discriminate; try reflexivity;
    try (intros [? ?]; discriminate).
Qed.

Example build_api_params_ex :
  build_api_params (Some (CInt 11110)) (Some (CInt 10100)) = "/11110/10100"
  /\ build_api_params None (Some (CInt 10100)) = "/10100"
  /\ build_api_params (Some (CInt 0)) (Some (CStr "")) = "".
Proof. repeat split; reflexivity. Qed.
